(** * batc: a shallow embedding of [batc.py] and the properties of its two commands

    [batc.py] renders a Slurm batch script from command-line options, hands it
    to [sbatch], and records the submission in a data file; a second command
    performs a one-time shell set-up.  The program is modelled by explicit
    state passing over a [World] (environment variables, working directory,
    regular files, host name, clock, the [sbatch] executable) and every
    command returns its outcome, the world it leaves behind and the list of
    externally visible events it performed.

    Modelling choices:
    - Python [str] and [bytes] values are [string]s, sequences of 8-bit
      characters; [str(b)] of a [bytes] value is its [repr], as in Python.
    - A path is joined with the working directory the way [os.path.join]
      does and then resolved by the operating system ([.], [..], repeated
      slashes, links); how it resolves is part of the [World], and files
      are looked up by what the path resolves to.
    - The processes the program starts ([pip], [sbatch], the shell) appear
      as events; what they do to the file system is outside the model. *)

From Stdlib Require Import ZArith Ascii String List Lia Bool.
From Stdlib Require Import DecimalString.
From stdpp Require Import base option gmap strings.

Import ListNotations.
Local Open Scope list_scope.
Local Open Scope string_scope.

(* Let [simpl] compute concatenations that start with a literal. *)
#[local] Arguments String.append !s1 s2 : simpl nomatch.

(** ** Python strings *)

Module Py.

(** A value that an f-string placeholder may receive in [batc.py]. *)
Inductive pyval : Type :=
  | PNone
  | PStr (s : string)
  | PInt (z : Z)
  | PBytes (b : string).

Definition LF : ascii := "010"%char.
Definition TAB : ascii := "009"%char.
Definition CR : ascii := "013"%char.
Definition BSL : ascii := "092"%char.
Definition SQUOTE : ascii := "039"%char.
Definition DQUOTE : ascii := "034"%char.

Definition nl : string := String LF "".

(** [str(int)]: decimal, with a leading minus sign for negatives. *)
Definition str_of_int (z : Z) : string :=
  NilZero.string_of_int (Z.to_int z).

(** [c in s] for a character. *)
Fixpoint mem_char (c : ascii) (s : string) : bool :=
  match s with
  | "" => false
  | String d s' => if Ascii.eqb c d then true else mem_char c s'
  end.

Definition hex_digit (n : N) : ascii :=
  match n with
  | 0 => "0" | 1 => "1" | 2 => "2" | 3 => "3" | 4 => "4" | 5 => "5"
  | 6 => "6" | 7 => "7" | 8 => "8" | 9 => "9" | 10 => "a" | 11 => "b"
  | 12 => "c" | 13 => "d" | 14 => "e" | _ => "f"
  end%N%char.

(** One byte of [repr(bytes)] with [q] the delimiting quote. *)
Definition repr_byte (q c : ascii) : string :=
  if Ascii.eqb c q || Ascii.eqb c BSL then String BSL (String c "")
  else if Ascii.eqb c TAB then String BSL "t"
  else if Ascii.eqb c LF then String BSL "n"
  else if Ascii.eqb c CR then String BSL "r"
  else if (N_of_ascii c <? 32)%N || (127 <=? N_of_ascii c)%N then
    String BSL (String "x" (String (hex_digit (N_of_ascii c / 16))
                              (String (hex_digit (N_of_ascii c mod 16)) "")))
  else String c "".

Fixpoint repr_body (q : ascii) (b : string) : string :=
  match b with
  | "" => String q ""
  | String c b' => repr_byte q c ++ repr_body q b'
  end.

(** The quote [repr(bytes)] picks: double quotes only when the value holds a
    single quote and no double quote. *)
Definition repr_quote (b : string) : ascii :=
  if mem_char SQUOTE b && negb (mem_char DQUOTE b) then DQUOTE else SQUOTE.

(** [repr(b)] for a [bytes] value, which is what [str(b)] returns. *)
Definition bytes_repr (b : string) : string :=
  String "b" (String (repr_quote b) (repr_body (repr_quote b) b)).

(** [str(v)], also the text an f-string placeholder [{v}] expands to. *)
Definition str (v : pyval) : string :=
  match v with
  | PNone => "None"
  | PStr s => s
  | PInt z => str_of_int z
  | PBytes b => bytes_repr b
  end.

(** An optional string as the Python value [getenv] and click hand over. *)
Definition of_opt (o : option string) : pyval :=
  match o with
  | Some s => PStr s
  | None => PNone
  end.

(** [s.startswith(p)], returning the remainder. *)
Fixpoint strip_prefix (p s : string) : option string :=
  match p with
  | "" => Some s
  | String c p' =>
      match s with
      | "" => None
      | String d s' => if Ascii.eqb c d then strip_prefix p' s' else None
      end
  end.

Definition is_digit (c : ascii) : bool :=
  (48 <=? N_of_ascii c)%N && (N_of_ascii c <=? 57)%N.

Definition is_alpha (c : ascii) : bool :=
  ((65 <=? N_of_ascii c)%N && (N_of_ascii c <=? 90)%N)
  || ((97 <=? N_of_ascii c)%N && (N_of_ascii c <=? 122)%N).

(** The longest prefix of characters satisfying [f]: a greedy [f+] / [f*]. *)
Fixpoint take_while (f : ascii -> bool) (s : string) : string :=
  match s with
  | "" => ""
  | String c s' => if f c then String c (take_while f s') else ""
  end.

(** The lines of a text, split at every line feed ([s.split('\n')]). *)
Fixpoint lines (s : string) : list string :=
  match s with
  | "" => [""]
  | String c s' =>
      if Ascii.eqb c LF then "" :: lines s'
      else match lines s' with
           | [] => [String c ""]
           | l :: ls => String c l :: ls
           end
  end.

(** [s.rstrip('/')]. *)
Fixpoint rstrip_slash (s : string) : string :=
  match s with
  | "" => ""
  | String c s' =>
      match rstrip_slash s' with
      | "" => if Ascii.eqb c "/" then "" else String c ""
      | r => String c r
      end
  end.

Fixpoint ends_with_slash (s : string) : bool :=
  match s with
  | "" => false
  | String c "" => Ascii.eqb c "/"
  | String _ s' => ends_with_slash s'
  end.

(** [b.startswith('/')]. *)
Definition is_abs (b : string) : bool :=
  match b with
  | String c _ => Ascii.eqb c "/"
  | "" => false
  end.

(** [os.path.join(a, b)] on POSIX. *)
Definition path_join (a b : string) : string :=
  if is_abs b then b
  else if String.eqb a "" || ends_with_slash a then a ++ b
  else a ++ "/" ++ b.

End Py.

(** ** The process environment and the effects of a command *)

Module Batc.
Import Py.

(** Everything outside the program that [batc.py] reads or changes. *)
Record World : Type := mkWorld {
  env : gmap string string;      (* os.environ *)
  cwd : string;                  (* the working directory of the process *)
  files : gmap string string;    (* regular files, by what names them *)
  fqdn : string;                 (* socket.getfqdn() *)
  pw_dir : option string;        (* home directory in the password database *)
  now : string;                  (* str(datetime.datetime.now()) *)
  tmp_name : string;             (* the name NamedTemporaryFile picks *)
  openable : string -> bool;     (* open(path, 'a' or 'w') succeeds *)
  sbatch : string -> option (string * string);
    (* running [sbatch] on a script: its stdout and stderr bytes, or [None]
       when the executable cannot be spawned *)
  resolve : string -> string
    (* the file an absolute path names once the operating system has
       followed [.], [..], repeated slashes and links: two paths name the
       same file exactly when they resolve alike *)
}.

Inductive exn : Type := AttributeError | TypeError | OSError.

Inductive outcome : Type :=
  | Done
  | UsageError (option_name message : string)   (* click.BadOptionUsage *)
  | Raised (e : exn).

Inductive event : Type :=
  | Echo (msg : string)                  (* click.echo *)
  | System (cmd : string)                (* os.system *)
  | Append (path text : string)          (* open(path, 'a') and its writes *)
  | TempFile (name content : string)     (* the flushed temporary script *)
  | Spawn (argv : list string)           (* subprocess.Popen *)
  | WriteFile (path text : string).      (* open(path, 'w') and its writes *)

Definition result : Type := outcome * World * list event.

Definition getenv (w : World) (k : string) : option string := env w !! k.

(** The file a path names for this process: relative paths start at [cwd],
    and the operating system resolves the rest. *)
Definition abspath (w : World) (p : string) : string :=
  resolve w (path_join (cwd w) p).

(** [os.path.isfile(p)]. *)
Definition isfile (w : World) (p : string) : bool :=
  if String.eqb p "" then false
  else bool_decide (is_Some (files w !! abspath w p)).

Definition set_files (w : World) (fs : gmap string string) : World :=
  mkWorld (env w) (cwd w) fs (fqdn w) (pw_dir w) (now w) (tmp_name w)
          (openable w) (sbatch w) (resolve w).

Definition write_file (w : World) (p text : string) : World :=
  set_files w (<[abspath w p := text]> (files w)).

Definition append_file (w : World) (p text : string) : World :=
  set_files w (<[abspath w p := default "" (files w !! abspath w p) ++ text]>
                 (files w)).

Definition setenv (w : World) (k v : string) : World :=
  mkWorld (<[k := v]> (env w)) (cwd w) (files w) (fqdn w) (pw_dir w) (now w)
          (tmp_name w) (openable w) (sbatch w) (resolve w).

(** [os.path.expanduser('~' + rest)] where [rest] is empty or starts with a
    slash: [HOME] when set, else the password database, else unchanged. *)
Definition expanduser_tilde (w : World) (rest : string) : string :=
  let userhome :=
    match getenv w "HOME" with
    | Some h => Some h
    | None => pw_dir w
    end in
  match userhome with
  | None => "~" ++ rest
  | Some h =>
      match rstrip_slash h ++ rest with
      | "" => "/"
      | r => r
      end
  end.

(** [w.write(l + "\n")] for each [l]. *)
Fixpoint write_lines (ls : list string) : string :=
  match ls with
  | [] => ""
  | l :: ls' => (l ++ nl) ++ write_lines ls'
  end.

(** *** Module level: [partition_acc_name] *)

(** [re.search(r"^nexus([a-zA-Z]+)", s)] and its group 1; [None] when there
    is no match. *)
Definition search_nexus (s : string) : option string :=
  match strip_prefix "nexus" s with
  | Some rest =>
      match take_while is_alpha rest with
      | "" => None
      | g => Some g
      end
  | None => None
  end.

(** The module-level variable [partition_acc_name], before [.group(1)] is
    taken: [None] stands for a failed search. *)
Definition partition_acc_name (w : World) : option string :=
  search_nexus (fqdn w).

(** *** [setup] *)

(** The processes [setup] starts are recorded as events; the [files] of the
    resulting world follow the writes [setup] performs itself. *)
Definition setup (w : World) : result :=
  if bool_decide (getenv w "BATC_SETUP" = Some "true") then
    (Done, w, [Echo "Setup has already been completed"])
  else
    let lines_to_add :=
      [ "alias scratch=" ++ String DQUOTE "cd /fs/nexus-scratch/"
          ++ str (of_opt (getenv w "USER")) ++ "/" ++ String DQUOTE "";
        "export BATC_SETUP=true" ] in
    let bashrc_path := expanduser_tilde w "/.bashrc" in
    if openable w (abspath w bashrc_path) then
      let text :=
        nl ++ "# Added by <batc>" ++ nl ++ write_lines lines_to_add
           ++ "# End of <batc>" ++ nl in
      (Done, append_file w bashrc_path text,
       [System "pip install conda"; Append bashrc_path text;
        System "source ~/.bashrc"])
    else
      (Raised OSError, w, [System "pip install conda"]).

(** *** [run] *)

Record RunArgs : Type := mkArgs {
  command : string;
  job : string;
  qos : string;
  ntasks : Z;
  cpu : Z;
  mem : string;
  gpu : string;
  time : string;
  pwd : option string;
  conda_env : option string;
  acc : string;
  part : string;
  datafile : string;
  logfile : string;
  m : bool
}.

(** The f-string assigned to [slurm_script]. *)
Definition slurm_script_text
    (job qos part acc : string) (ntasks cpu : pyval) (mem gpu time : string)
    (pwd : pyval) (logfile : string) (conda_env : pyval) (command : string)
    : string :=
  "#!/bin/bash" ++ nl ++
  "#SBATCH --job-name=" ++ job ++ nl ++
  "#SBATCH --qos=" ++ qos ++ nl ++
  "#SBATCH --partition=" ++ part ++ nl ++
  "#SBATCH --account=" ++ acc ++ nl ++
  "#SBATCH --ntasks=" ++ str ntasks ++ nl ++
  "#SBATCH --cpus-per-task=" ++ str cpu ++ nl ++
  "#SBATCH --mem=" ++ mem ++ "gb" ++ nl ++
  "#SBATCH --gpus=" ++ gpu ++ nl ++
  "#SBATCH --time=" ++ time ++ nl ++
  "#SBATCH --output=" ++ str pwd ++ "/" ++ logfile
     ++ " # Redirect the output to a file" ++ nl ++
  nl ++
  "eval " ++ String DQUOTE "$(conda shell.bash hook)" ++ String DQUOTE nl ++
  nl ++
  "# Activate conda environment" ++ nl ++
  "conda activate " ++ str conda_env ++ nl ++
  nl ++
  "# Run your Python script or other commands" ++ nl ++
  command ++ nl.

(** The first four statements of [run]: the command and the two file names
    after normalisation. *)
Definition command' (w : World) (a : RunArgs) : string :=
  if isfile w (command a) then "python " ++ command a else command a.

Definition logfile' (a : RunArgs) : string :=
  if String.eqb (logfile a) "" then job a ++ ".log" else logfile a.

Definition datafile' (a : RunArgs) : string :=
  if String.eqb (datafile a) "" then job a ++ ".data" else datafile a.

(** [slurm_script] as [run] renders it, after the [-M] overrides. *)
Definition slurm_script (w : World) (a : RunArgs) : string :=
  let qos := if m a then "huge-long" else qos a in
  let cpu := if m a then PStr "4" else PInt (cpu a) in
  let gpu := if m a then "rtxa4000:4" else gpu a in
  let mem := if m a then "32" else mem a in
  slurm_script_text (job a) qos (part a) (acc a) (PInt (ntasks a)) cpu mem gpu
    (time a) (of_opt (pwd a)) (logfile' a) (of_opt (conda_env a))
    (command' w a).

(** [re.match] of [Submitted batch job (\d+)] at the start of [s]: group 1. *)
Definition pid_here (s : string) : option string :=
  match strip_prefix "Submitted batch job " s with
  | Some rest =>
      match take_while is_digit rest with
      | "" => None
      | d => Some d
      end
  | None => None
  end.

(** [re.search(r"Submitted batch job (\d+)", s)]: the leftmost match. *)
Fixpoint search_pid (s : string) : option string :=
  match pid_here s with
  | Some d => Some d
  | None =>
      match s with
      | "" => None
      | String _ s' => search_pid s'
      end
  end.

(** The job id that goes into the record, from the captured stdout bytes. *)
Definition pid_of (stdout : string) : string :=
  match search_pid (str (PBytes stdout)) with
  | Some d => d
  | None => "Unknown PID"
  end.

(** What [run] writes to the data file. *)
Definition record_text (w : World) (script stdout stderr : string) : string :=
  let lines_to_add :=
    [ PStr ("PID : " ++ pid_of stdout);
      PStr " ";
      PStr ("Time of job submission: " ++ now w);
      PStr " ";
      PStr "Sbatch script:";
      PStr script;
      PStr " ";
      PStr "Std Out From Subprocess (If Any):";
      PBytes stdout;
      PStr "Std Err (If Any):";
      PBytes stderr ] in
  nl ++ "# Details <batc> ::" ++ nl ++ write_lines (map str lines_to_add).

Definition run (w : World) (a : RunArgs) : result :=
  if isfile w (logfile' a) then
    (UsageError "--logfile"
       "File with the same name as logfile already exists", w, [])
  else
    let script := slurm_script w a in
    match sbatch w script with
    | None => (Raised OSError, w, [TempFile (tmp_name w) script])
    | Some (stdout, stderr) =>
        let submitted :=
          [TempFile (tmp_name w) script; Spawn ["sbatch"; tmp_name w]] in
        match getenv w "PWD" with
        | None => (Raised TypeError, w, submitted)
        | Some d =>
            let path := path_join d (datafile' a) in
            let text := record_text w script stdout stderr in
            if openable w (abspath w path) then
              (Done, write_file w path text,
               (submitted ++ [WriteFile path text])%list)
            else (Raised OSError, w, submitted)
        end
    end.

(** *** The command line *)

(** The options of [batc run] as typed: [None] for an option left out. *)
Record RunOpts : Type := mkOpts {
  o_command : string;
  o_job : option string;
  o_qos : option string;
  o_ntasks : option Z;
  o_cpu : option Z;
  o_mem : option string;
  o_gpu : option string;
  o_time : option string;
  o_pwd : option string;
  o_conda_env : option string;
  o_acc : option string;
  o_part : option string;
  o_logfile : option string;
  o_datafile : option string;
  o_M : bool
}.

(** The [click.option] defaults of [run]; [name] is [partition_acc_name]. *)
Definition with_defaults (w : World) (name : string) (o : RunOpts) : RunArgs :=
  {| command := o_command o;
     job := default "default" (o_job o);
     qos := default "default" (o_qos o);
     ntasks := default 1%Z (o_ntasks o);
     cpu := default 1%Z (o_cpu o);
     mem := default "32" (o_mem o);
     gpu := default "rtxa4000:1" (o_gpu o);
     time := default "10:00" (o_time o);
     pwd := match o_pwd o with Some p => Some p | None => getenv w "PWD" end;
     conda_env := match o_conda_env o with
                  | Some e => Some e
                  | None => getenv w "$CONDA_DEFAULT_ENV"
                  end;
     acc := default name (o_acc o);
     part := default name (o_part o);
     datafile := default "" (o_datafile o);
     logfile := default "" (o_logfile o);
     m := o_M o |}.

Inductive cli : Type :=
  | CliSetup
  | CliRun (o : RunOpts).

(** Running the file as a program: the module level first, where
    [partition_acc_name] takes [.group(1)] of the search result, then the
    chosen command. *)
Definition main (w : World) (c : cli) : result :=
  match partition_acc_name w with
  | None => (Raised AttributeError, w, [])
  | Some name =>
      match c with
      | CliSetup => setup w
      | CliRun o => run w (with_defaults w name o)
      end
  end.

(** *** Vocabulary for stating properties of a run *)

Definition outcome_of (r : result) : outcome := fst (fst r).
Definition world_of (r : result) : World := snd (fst r).
Definition events_of (r : result) : list event := snd r.

(** The command ended in click's usage error. *)
Definition rejected (r : result) : bool :=
  match outcome_of r with
  | UsageError _ _ => true
  | _ => false
  end.

(** The script that was written out for [sbatch], if the run got that far. *)
Definition submitted_script (r : result) : option string :=
  match events_of r with
  | TempFile _ s :: _ => Some s
  | _ => None
  end.

(** The text holds no line feed. *)
Definition no_lf (s : string) : Prop := mem_char LF s = false.

(** The last line of a text that ends with a line feed. *)
Definition final_line (s : string) : string :=
  List.last (removelast (lines s)) "".

(** The file the [isfile] test on the log file looks at. *)
Definition checked_path (w : World) (a : RunArgs) : string :=
  abspath w (logfile' a).

(** The path in the [--output] directive, and the file it names for a job
    started from the working directory of the process. *)
Definition output_path (a : RunArgs) : string :=
  str (of_opt (pwd a)) ++ "/" ++ logfile' a.

Definition output_file (w : World) (a : RunArgs) : string :=
  abspath w (output_path a).

(** The claim that a [--pwd] other than the working directory makes the
    existence test look at another file than the one the job writes. *)
Definition check_misses_output_file (w : World) (a : RunArgs) : Prop :=
  str (of_opt (pwd a)) <> cwd w -> output_file w a <> checked_path w a.

(** The ten directive lines of the template, each as [#SBATCH --key=value]
    and nothing more. *)
Definition bare_directives (a : RunArgs) : list string :=
  [ "#SBATCH --job-name=" ++ job a;
    "#SBATCH --qos=" ++ (if m a then "huge-long" else qos a);
    "#SBATCH --partition=" ++ part a;
    "#SBATCH --account=" ++ acc a;
    "#SBATCH --ntasks=" ++ str_of_int (ntasks a);
    "#SBATCH --cpus-per-task=" ++ (if m a then "4" else str_of_int (cpu a));
    "#SBATCH --mem=" ++ (if m a then "32" else mem a) ++ "gb";
    "#SBATCH --gpus=" ++ (if m a then "rtxa4000:4" else gpu a);
    "#SBATCH --time=" ++ time a;
    "#SBATCH --output=" ++ output_path a ].

(** The same lines as the template has them: the output line carries the
    template's trailing remark. *)
Definition directives (a : RunArgs) : list string :=
  [ "#SBATCH --job-name=" ++ job a;
    "#SBATCH --qos=" ++ (if m a then "huge-long" else qos a);
    "#SBATCH --partition=" ++ part a;
    "#SBATCH --account=" ++ acc a;
    "#SBATCH --ntasks=" ++ str_of_int (ntasks a);
    "#SBATCH --cpus-per-task=" ++ (if m a then "4" else str_of_int (cpu a));
    "#SBATCH --mem=" ++ (if m a then "32" else mem a) ++ "gb";
    "#SBATCH --gpus=" ++ (if m a then "rtxa4000:4" else gpu a);
    "#SBATCH --time=" ++ time a;
    "#SBATCH --output=" ++ output_path a
       ++ " # Redirect the output to a file" ].

(** The lines that follow the directives, up to the command. *)
Definition body_lines (a : RunArgs) : list string :=
  [ "";
    "eval " ++ String DQUOTE "$(conda shell.bash hook)" ++ String DQUOTE "";
    "";
    "# Activate conda environment";
    "conda activate " ++ str (of_opt (conda_env a));
    "";
    "# Run your Python script or other commands" ].

(** The values the caller always controls hold no line feed. *)
Definition one_line_common (a : RunArgs) : Prop :=
  Forall no_lf [job a; part a; acc a; time a; str (of_opt (pwd a)); logfile' a].

(** Every value that reaches a directive line holds no line feed. *)
Definition one_line_fields (a : RunArgs) : Prop :=
  one_line_common a /\ (m a = false -> Forall no_lf [qos a; mem a; gpu a]).

(** The claim that the head of the script is the interpreter line, the ten
    directives in bare form and a blank line. *)
Definition renders_bare_directives (w : World) (a : RunArgs) : Prop :=
  firstn 12 (lines (slurm_script w a))
  = ("#!/bin/bash" :: bare_directives a ++ [""])%list.

(** [run] with another value for [--pwd]. *)
Definition with_pwd (a : RunArgs) (p : option string) : RunArgs :=
  mkArgs (command a) (job a) (qos a) (ntasks a) (cpu a) (mem a) (gpu a)
         (time a) p (conda_env a) (acc a) (part a) (datafile a) (logfile a)
         (m a).

(** [run] with other values for [--qos], [--cpu], [--mem] and [--gpu]. *)
Definition with_resources (a : RunArgs) (q : string) (c : Z) (mm g : string)
    : RunArgs :=
  mkArgs (command a) (job a) q (ntasks a) c mm g (time a) (pwd a)
         (conda_env a) (acc a) (part a) (datafile a) (logfile a) (m a).

(** The text the job-id pattern starts with. *)
Definition job_marker : string := "Submitted batch job ".

(** The characters the job-id pattern can match: those of the marker and
    the digits. *)
Definition marker_char (c : ascii) : bool :=
  is_digit c || mem_char c job_marker.

(** The two quotes [repr] chooses between. *)
Definition is_quote (q : ascii) : bool :=
  Ascii.eqb q SQUOTE || Ascii.eqb q DQUOTE.

Fixpoint all_digits (s : string) : bool :=
  match s with
  | "" => true
  | String c s' => is_digit c && all_digits s'
  end.

(** [s] does not go on with a digit. *)
Definition stops_digits (s : string) : Prop :=
  match s with
  | "" => True
  | String c _ => is_digit c = false
  end.

(** The pattern matches [out] right after [pre]. *)
Definition marker_at (out pre : string) : Prop :=
  exists c post, out = pre ++ job_marker ++ String c post /\ is_digit c = true.

(** The leftmost match of the pattern in [out] starts after [pre] and
    captures [ds]. *)
Definition first_job_id (out pre ds : string) : Prop :=
  (exists post, out = pre ++ job_marker ++ ds ++ post /\ stops_digits post)
  /\ ds <> "" /\ all_digits ds = true
  /\ forall pre', marker_at out pre' -> String.length pre <= String.length pre'.

(** The host name has the form the module-level pattern asks for. *)
Definition nexus_host (s : string) : Prop :=
  exists c rest, s = "nexus" ++ String c rest /\ is_alpha c = true.

(** *** Vocabulary for the remaining behaviour of the two commands *)

(** The block [setup] appends to the shell profile, as one text; [user] is
    what [os.getenv('USER')] returned. *)
Definition bashrc_block (user : option string) : string :=
  nl ++ "# Added by <batc>" ++ nl
     ++ "alias scratch=" ++ String DQUOTE "cd /fs/nexus-scratch/"
     ++ str (of_opt user) ++ "/" ++ String DQUOTE nl
     ++ "export BATC_SETUP=true" ++ nl
     ++ "# End of <batc>" ++ nl.

Fixpoint all_alpha (s : string) : bool :=
  match s with
  | "" => true
  | String c s' => is_alpha c && all_alpha s'
  end.

(** [s] does not go on with a letter. *)
Definition stops_alpha (s : string) : Prop :=
  match s with
  | "" => True
  | String c _ => is_alpha c = false
  end.

(** [batc run CMD] with no option at all. *)
Definition bare_opts (cmd : string) : RunOpts :=
  mkOpts cmd None None None None None None None None None None None None None
         false.

(** The events a command of the other kind would perform. *)
Definition is_shell_event (e : event) : bool :=
  match e with
  | Echo _ | System _ | Append _ _ => true
  | _ => false
  end.

Definition is_submit_event (e : event) : bool :=
  match e with
  | TempFile _ _ | Spawn _ | WriteFile _ _ => true
  | _ => false
  end.

End Batc.

(** ** Sample inputs *)

Module Sample.
Import Py Batc.

(** An [sbatch] that accepts every script as job 12345. *)
Definition sbatch_ok (script : string) : option (string * string) :=
  Some ("Submitted batch job 12345" ++ nl, "").

(** An [sbatch] that prints nothing on stdout and complains on stderr. *)
Definition sbatch_refuses (script : string) : option (string * string) :=
  Some ("", "sbatch: error: invalid qos" ++ nl).

(** Path resolution on a file system without links: the components of an
    absolute path, with empty components and [.] dropped and [..] stepping
    back. *)
Fixpoint split_slash (s : string) : list string :=
  match s with
  | "" => [""]
  | String c s' =>
      if Ascii.eqb c "/" then "" :: split_slash s'
      else match split_slash s' with
           | [] => [String c ""]
           | x :: xs => String c x :: xs
           end
  end.

Fixpoint walk (stack cs : list string) : list string :=
  match cs with
  | [] => rev stack
  | c :: cs' =>
      if String.eqb c "" || String.eqb c "." then walk stack cs'
      else if String.eqb c ".." then walk (tl stack) cs'
      else walk (c :: stack) cs'
  end.

Fixpoint join_slash (cs : list string) : string :=
  match cs with
  | [] => ""
  | c :: cs' => "/" ++ c ++ join_slash cs'
  end.

Definition resolve_lexical (p : string) : string :=
  match walk [] (split_slash p) with
  | [] => "/"
  | cs => join_slash cs
  end.

(** A user [u] on a Nexus node, in their home directory, where [train.py]
    and an old log file exist. *)
Definition world : World :=
  mkWorld
    (list_to_map [("PWD", "/home/u"); ("CONDA_DEFAULT_ENV", "base");
                  ("USER", "u"); ("HOME", "/home/u")])
    "/home/u"
    (list_to_map [("/home/u/train.py", "print(1)");
                  ("/home/u/old.log", "done")])
    "nexusclip00.umiacs.umd.edu"
    None
    "2024-01-01 00:00:00.000000"
    "/tmp/tmpabc"
    (fun _ => true)
    sbatch_ok
    resolve_lexical.

Definition set_sbatch (w : World)
    (f : string -> option (string * string)) : World :=
  mkWorld (env w) (cwd w) (files w) (fqdn w) (pw_dir w) (now w) (tmp_name w)
          (openable w) f (resolve w).

Definition set_env (w : World) (e : gmap string string) : World :=
  mkWorld e (cwd w) (files w) (fqdn w) (pw_dir w) (now w) (tmp_name w)
          (openable w) (sbatch w) (resolve w).

Definition set_fqdn (w : World) (h : string) : World :=
  mkWorld (env w) (cwd w) (files w) h (pw_dir w) (now w) (tmp_name w)
          (openable w) (sbatch w) (resolve w).

(** [batc run train.py] *)
Definition opts : RunOpts :=
  mkOpts "train.py" None None None None None None None None None None None
         None None false.

(** [batc run --qos medium --cpu 2 --mem 64 --gpu rtxa5000:2 -M train.py] *)
Definition opts_M : RunOpts :=
  mkOpts "train.py" None (Some "medium") None (Some 2%Z) (Some "64")
         (Some "rtxa5000:2") None None None None None None None true.

(** [batc run --logfile old.log train.py] *)
Definition opts_old_log : RunOpts :=
  mkOpts "train.py" None None None None None None None None None None None
         (Some "old.log") None false.

(** [batc run "python train.py --flag"] *)
Definition opts_quoted : RunOpts :=
  mkOpts "python train.py --flag" None None None None None None None None None
         None None None None false.

(** [batc run --pwd "" train.py] *)
Definition opts_empty_pwd : RunOpts :=
  mkOpts "train.py" None None None None None None None (Some "") None None None
         None None false.

(** [batc run --pwd /scratch/u train.py] *)
Definition opts_scratch : RunOpts :=
  mkOpts "train.py" None None None None None None None (Some "/scratch/u")
         None None None None None false.

(** The same user in the root directory, where [default.log] exists. *)
Definition world_at_root : World :=
  mkWorld
    (list_to_map [("PWD", "/"); ("USER", "u"); ("HOME", "/home/u")])
    "/"
    (list_to_map [("/default.log", "done")])
    "nexusclip00.umiacs.umd.edu"
    None
    "2024-01-01 00:00:00.000000"
    "/tmp/tmpabc"
    (fun _ => true)
    sbatch_ok
    resolve_lexical.

(** [batc run --pwd . train.py] *)
Definition opts_dot_pwd : RunOpts :=
  mkOpts "train.py" None None None None None None None (Some ".") None None
         None None None false.

(** [batc run ./train.py] *)
Definition opts_dot_command : RunOpts :=
  mkOpts "./train.py" None None None None None None None None None None None
         None None false.

(** [batc run --logfile ./old.log train.py] *)
Definition opts_dot_old_log : RunOpts :=
  mkOpts "train.py" None None None None None None None None None None None
         (Some "./old.log") None false.

(** [batc run --datafile ./default.log train.py] *)
Definition opts_data_is_log : RunOpts :=
  mkOpts "train.py" None None None None None None None None None None None
         None (Some "./default.log") false.

Definition args : RunArgs := with_defaults world "clip" opts.
Definition args_M : RunArgs := with_defaults world "clip" opts_M.
Definition args_old_log : RunArgs := with_defaults world "clip" opts_old_log.
Definition args_quoted : RunArgs := with_defaults world "clip" opts_quoted.
Definition args_empty_pwd : RunArgs :=
  with_defaults world "clip" opts_empty_pwd.
Definition args_scratch : RunArgs := with_defaults world "clip" opts_scratch.
Definition args_data_is_log : RunArgs :=
  with_defaults world "clip" opts_data_is_log.
Definition args_dot_pwd : RunArgs := with_defaults world "clip" opts_dot_pwd.
Definition args_dot_command : RunArgs :=
  with_defaults world "clip" opts_dot_command.
Definition args_dot_old_log : RunArgs :=
  with_defaults world "clip" opts_dot_old_log.

End Sample.

(** ** Facts about strings *)

Import Py Batc.

Section StringFacts.

Lemma append_nil_r (s : string) : s ++ "" = s.
Proof. induction s as [|c s IH]; simpl; [reflexivity | now rewrite IH]. Qed.

Lemma append_assoc (s t u : string) : (s ++ t) ++ u = s ++ t ++ u.
Proof. induction s as [|c s IH]; simpl; [reflexivity | now rewrite IH]. Qed.

Lemma length_append (s t : string) :
  String.length (s ++ t) = String.length s + String.length t.
Proof. induction s as [|c s IH]; simpl; [reflexivity | now rewrite IH]. Qed.

Lemma append_inv_tail (s t u : string) : s ++ u = t ++ u -> s = t.
Proof.
  revert t. induction s as [|c s IH]; intros [|d t] H; simpl in H.
  - reflexivity.
  - apply (f_equal String.length) in H. simpl in H.
    rewrite length_append in H. lia.
  - apply (f_equal String.length) in H. simpl in H.
    rewrite length_append in H. lia.
  - injection H as -> H. f_equal. now apply IH.
Qed.

Lemma append_inv_head (s t u : string) : s ++ t = s ++ u -> t = u.
Proof.
  induction s as [|c s IH]; simpl; intros H; [assumption|].
  injection H as H. now apply IH.
Qed.

Lemma mem_char_append (c : ascii) (s t : string) :
  mem_char c (s ++ t) = mem_char c s || mem_char c t.
Proof.
  induction s as [|d s IH]; cbn [mem_char String.append]; [reflexivity|].
  destruct (Ascii.eqb c d); [reflexivity | exact IH].
Qed.

Lemma no_lf_append (s t : string) : no_lf s -> no_lf t -> no_lf (s ++ t).
Proof.
  unfold no_lf. intros Hs Ht. now rewrite mem_char_append, Hs, Ht.
Qed.

Lemma lines_nonempty (s : string) : lines s <> [].
Proof.
  induction s as [|c s IH]; simpl; [discriminate|].
  destruct (Ascii.eqb c LF); [discriminate|].
  destruct (lines s); discriminate.
Qed.

(** A line-feed-free text followed by a line feed is one line. *)
Lemma lines_line (s rest : string) :
  no_lf s -> lines (s ++ String LF rest) = s :: lines rest.
Proof.
  unfold no_lf.
  induction s as [|c s IH]; cbn [mem_char lines String.append]; intros H.
  - now rewrite Ascii.eqb_refl.
  - rewrite (Ascii.eqb_sym c).
    destruct (Ascii.eqb LF c); [discriminate|].
    rewrite (IH H). reflexivity.
Qed.

Lemma lines_write_lines (ls : list string) (rest : string) :
  Forall no_lf ls -> lines (write_lines ls ++ rest) = (ls ++ lines rest)%list.
Proof.
  induction 1 as [|l ls Hl _ IH]; cbn [write_lines app].
  - reflexivity.
  - unfold nl. rewrite !append_assoc. cbn [String.append].
    rewrite (lines_line l _ Hl). f_equal. exact IH.
Qed.

Lemma write_lines_app (l1 l2 : list string) :
  write_lines (l1 ++ l2)%list = write_lines l1 ++ write_lines l2.
Proof.
  induction l1 as [|x l1 IH]; cbn [write_lines app]; [reflexivity|].
  now rewrite IH, !append_assoc.
Qed.

Lemma write_lines_blank (ls : list string) :
  write_lines ("" :: ls) = String LF (write_lines ls).
Proof. reflexivity. Qed.

Lemma lines_lf (s : string) : lines (String LF s) = "" :: lines s.
Proof. cbn [lines]. now rewrite Ascii.eqb_refl. Qed.

Lemma strip_prefix_append (p s : string) : strip_prefix p (p ++ s) = Some s.
Proof.
  induction p as [|c p IH]; simpl; [reflexivity|].
  now rewrite Ascii.eqb_refl.
Qed.

Lemma strip_prefix_Some (p s r : string) :
  strip_prefix p s = Some r -> s = p ++ r.
Proof.
  revert s. induction p as [|c p IH]; simpl; intros s H.
  - now injection H as ->.
  - destruct s as [|d s]; [discriminate|].
    destruct (Ascii.eqb c d) eqn:E; [|discriminate].
    apply Ascii.eqb_eq in E. subst d. f_equal. now apply IH.
Qed.

Lemma take_while_digits (ds post : string) :
  all_digits ds = true -> stops_digits post ->
  take_while is_digit (ds ++ post) = ds.
Proof.
  induction ds as [|c ds IH]; simpl; intros Hd Hp.
  - destruct post as [|c post]; simpl in *; [reflexivity | now rewrite Hp].
  - apply andb_prop in Hd as [Hc Hd]. rewrite Hc. f_equal. now apply IH.
Qed.

(** The decimal rendering of an integer holds digits and a sign only. *)
Lemma no_lf_string_of_uint (d : Decimal.uint) :
  no_lf (NilEmpty.string_of_uint d).
Proof. unfold no_lf. induction d; simpl; auto. Qed.

Lemma no_lf_str_of_int (z : Z) : no_lf (str_of_int z).
Proof.
  unfold str_of_int, NilZero.string_of_int, NilZero.string_of_uint.
  destruct (Z.to_int z) as [d|d].
  - destruct d; try exact (no_lf_string_of_uint _); reflexivity.
  - unfold no_lf. simpl.
    destruct d; try exact (no_lf_string_of_uint _); reflexivity.
Qed.

End StringFacts.

(** ** The rendered script, line by line *)

Section Script.

(** The template, read as a sequence of written lines. *)
Lemma slurm_script_write_lines (w : World) (a : RunArgs) :
  slurm_script w a
  = write_lines ("#!/bin/bash" :: directives a ++ body_lines a
                   ++ [command' w a])%list.
Proof.
  unfold slurm_script, slurm_script_text, directives, body_lines, output_path.
  destruct (m a); cbn [write_lines app str nl];
    rewrite ?append_assoc; cbn [String.append];
    rewrite ?append_assoc; reflexivity.
Qed.

Lemma no_lf_directives (a : RunArgs) :
  one_line_fields a -> Forall no_lf (directives a).
Proof.
  intros [Hc Hm]. unfold one_line_common in Hc.
  repeat match goal with
         | H : Forall _ (_ :: _) |- _ => apply Forall_cons_iff in H as [? H]
         end.
  unfold directives, output_path.
  destruct (m a).
  - repeat constructor;
      repeat (apply no_lf_append; try reflexivity; try assumption);
      apply no_lf_str_of_int.
  - specialize (Hm eq_refl).
    repeat match goal with
           | H : Forall _ (_ :: _) |- _ => apply Forall_cons_iff in H as [? H]
           end.
    repeat constructor;
      repeat (apply no_lf_append; try reflexivity; try assumption);
      apply no_lf_str_of_int.
Qed.

Lemma no_lf_body_lines (a : RunArgs) :
  no_lf (str (of_opt (conda_env a))) -> Forall no_lf (body_lines a).
Proof.
  intros H. unfold body_lines.
  repeat constructor; try reflexivity.
  apply no_lf_append; [reflexivity | assumption].
Qed.

(** The head of the script: the interpreter line, the ten directive lines and
    the blank line that ends them. *)
Lemma script_head_lines (w : World) (a : RunArgs) :
  one_line_fields a ->
  firstn 12 (lines (slurm_script w a))
  = ("#!/bin/bash" :: directives a ++ [""])%list.
Proof.
  intros H. rewrite slurm_script_write_lines.
  change ("#!/bin/bash" :: directives a ++ body_lines a ++ [command' w a])%list
    with (("#!/bin/bash" :: directives a)
            ++ (body_lines a ++ [command' w a]))%list.
  rewrite write_lines_app, lines_write_lines
    by (constructor; [reflexivity | exact (no_lf_directives a H)]).
  unfold body_lines. cbn [app]. rewrite write_lines_blank, lines_lf.
  unfold directives. reflexivity.
Qed.

End Script.

(** ** [run]: the log-file precondition *)

Section RunFacts.

Lemma logfile'_nonempty (a : RunArgs) : logfile' a <> "".
Proof.
  unfold logfile'. destruct (String.eqb_spec (logfile a) "") as [_|Hne].
  - destruct (job a); discriminate.
  - exact Hne.
Qed.

Lemma isfile_true (w : World) (p : string) :
  p <> "" -> is_Some (files w !! abspath w p) -> isfile w p = true.
Proof.
  intros Hp Hf. unfold isfile.
  destruct (String.eqb_spec p "") as [->|_]; [contradiction|].
  now apply bool_decide_eq_true.
Qed.

Lemma isfile_false (w : World) (p : string) :
  files w !! abspath w p = None -> isfile w p = false.
Proof.
  intros Hf. unfold isfile. destruct (String.eqb p ""); [reflexivity|].
  apply bool_decide_eq_false. rewrite Hf. now intros [? ?].
Qed.

Lemma run_rejects (w : World) (a : RunArgs) :
  isfile w (logfile' a) = true ->
  run w a = (UsageError "--logfile"
               "File with the same name as logfile already exists", w, []).
Proof. intros H. unfold run. now rewrite H. Qed.

Lemma rejected_run (w : World) (a : RunArgs) :
  rejected (run w a) = isfile w (logfile' a).
Proof.
  unfold run. destruct (isfile w (logfile' a)); [reflexivity|].
  destruct (sbatch w (slurm_script w a)) as [[out err]|]; [|reflexivity].
  destruct (getenv w "PWD") as [d|]; [|reflexivity].
  now destruct (openable w _).
Qed.

Lemma submitted_script_run (w : World) (a : RunArgs) :
  submitted_script (run w a)
  = if isfile w (logfile' a) then None else Some (slurm_script w a).
Proof.
  unfold run. destruct (isfile w (logfile' a)); [reflexivity|].
  destruct (sbatch w (slurm_script w a)) as [[out err]|]; [|reflexivity].
  destruct (getenv w "PWD") as [d|]; [|reflexivity].
  now destruct (openable w _).
Qed.

End RunFacts.

(** C1.  Whenever a regular file exists at the log-file path (the one given,
    or [job.log] derived from the job name), [run] ends in the usage error
    for [--logfile], performs no event at all (no temporary script, no
    [sbatch] process, no write) and leaves every file as it was. *)
Theorem run_rejects_existing_logfile (w : World) (a : RunArgs) :
  is_Some (files w !! abspath w
             (if String.eqb (logfile a) "" then job a ++ ".log"
              else logfile a)) ->
  run w a = (UsageError "--logfile"
               "File with the same name as logfile already exists", w, []).
Proof.
  intros H. apply run_rejects.
  apply isfile_true; [apply logfile'_nonempty | exact H].
Qed.

Lemma run_rejects_existing_logfile_witness :
  run Sample.world Sample.args_old_log
  = (UsageError "--logfile"
       "File with the same name as logfile already exists", Sample.world, []).
Proof.
  apply (run_rejects_existing_logfile Sample.world Sample.args_old_log).
  vm_compute. eexists. reflexivity.
Defined.

(** The log file may be named through [.]: it is found all the same. *)
Example run_rejects_dot_old_log :
  run Sample.world Sample.args_dot_old_log
  = (UsageError "--logfile"
       "File with the same name as logfile already exists", Sample.world, []).
Proof. vm_compute. reflexivity. Qed.

(** C2.  With [-M] set, the script that [run] hands to [sbatch] is the same
    whatever was passed for [--qos], [--cpu], [--mem] and [--gpu]; its qos,
    cpus-per-task, mem and gpus directives are at the fixed values
    [huge-long], [4], [32gb] and [rtxa4000:4], and the other six directives
    carry the caller's job name, partition, account, task count, time limit
    and output path (shown line by line for caller values without line
    feeds). *)
Theorem maximize_overrides_four_directives
    (w : World) (a : RunArgs) (script : string) :
  m a = true ->
  submitted_script (run w a) = Some script ->
  (forall q c mm g,
     submitted_script (run w (with_resources a q c mm g)) = Some script)
  /\ (one_line_common a ->
      firstn 11 (lines script)
      = [ "#!/bin/bash";
          "#SBATCH --job-name=" ++ job a;
          "#SBATCH --qos=huge-long";
          "#SBATCH --partition=" ++ part a;
          "#SBATCH --account=" ++ acc a;
          "#SBATCH --ntasks=" ++ str_of_int (ntasks a);
          "#SBATCH --cpus-per-task=4";
          "#SBATCH --mem=32gb";
          "#SBATCH --gpus=rtxa4000:4";
          "#SBATCH --time=" ++ time a;
          "#SBATCH --output=" ++ str (of_opt (pwd a)) ++ "/"
             ++ (if String.eqb (logfile a) "" then job a ++ ".log"
                 else logfile a)
             ++ " # Redirect the output to a file" ]).
Proof.
  intros Hm Hs. rewrite submitted_script_run in Hs.
  destruct (isfile w (logfile' a)) eqn:Hl; [discriminate|].
  injection Hs as <-. split.
  - intros q c mm g. rewrite submitted_script_run.
    change (logfile' (with_resources a q c mm g)) with (logfile' a).
    rewrite Hl. unfold slurm_script. cbn [with_resources m]. now rewrite Hm.
  - intros Hc.
    assert (Hf : one_line_fields a).
    { split; [exact Hc | rewrite Hm; discriminate]. }
    pose proof (script_head_lines w a Hf) as Hh.
    apply (f_equal (firstn 11)) in Hh.
    rewrite firstn_firstn in Hh. change (Init.Nat.min 11 12) with 11 in Hh.
    rewrite Hh. unfold directives, output_path, logfile'. rewrite Hm.
    rewrite !append_assoc. reflexivity.
Qed.

Lemma maximize_overrides_four_directives_witness :
  (forall q c mm g,
     submitted_script
       (run Sample.world (with_resources Sample.args_M q c mm g))
     = Some (slurm_script Sample.world Sample.args_M))
  /\ (one_line_common Sample.args_M ->
      firstn 11 (lines (slurm_script Sample.world Sample.args_M))
      = [ "#!/bin/bash";
          "#SBATCH --job-name=default";
          "#SBATCH --qos=huge-long";
          "#SBATCH --partition=clip";
          "#SBATCH --account=clip";
          "#SBATCH --ntasks=1";
          "#SBATCH --cpus-per-task=4";
          "#SBATCH --mem=32gb";
          "#SBATCH --gpus=rtxa4000:4";
          "#SBATCH --time=10:00";
          "#SBATCH --output=/home/u/default.log # Redirect the output to a file" ]).
Proof.
  apply (maximize_overrides_four_directives Sample.world Sample.args_M).
  - reflexivity.
  - vm_compute. reflexivity.
Defined.

(** The options [--qos medium --cpu 2 --mem 64 --gpu rtxa5000:2] leave no
    trace in the script once [-M] is given. *)
Example maximize_sample_lines :
  firstn 11 (lines (slurm_script Sample.world Sample.args_M))
  = [ "#!/bin/bash";
      "#SBATCH --job-name=default";
      "#SBATCH --qos=huge-long";
      "#SBATCH --partition=clip";
      "#SBATCH --account=clip";
      "#SBATCH --ntasks=1";
      "#SBATCH --cpus-per-task=4";
      "#SBATCH --mem=32gb";
      "#SBATCH --gpus=rtxa4000:4";
      "#SBATCH --time=10:00";
      "#SBATCH --output=/home/u/default.log # Redirect the output to a file" ].
Proof. vm_compute. reflexivity. Qed.

(** ** [run]: the command line of the script *)

Section FinalLine.

Lemma lines_append_lf (x y : string) :
  lines (x ++ String LF y) = (lines x ++ lines y)%list.
Proof.
  induction x as [|c x IH]; cbn [String.append lines app].
  - now rewrite Ascii.eqb_refl.
  - destruct (Ascii.eqb c LF).
    + now rewrite IH.
    + rewrite IH. destruct (lines x) as [|l ls] eqn:E; [|reflexivity].
      now apply lines_nonempty in E.
Qed.

Lemma final_line_last (x l : string) :
  no_lf l -> final_line (x ++ String LF (l ++ String LF "")) = l.
Proof.
  intros Hl. unfold final_line.
  rewrite lines_append_lf, (lines_line l "" Hl).
  change (lines "") with [""].
  change [l; ""] with ([l] ++ [""])%list.
  rewrite List.app_assoc, removelast_last.
  apply last_last.
Qed.

(** The script is everything up to the remark above the command, then the
    command, then a line feed. *)
Lemma slurm_script_tail (w : World) (a : RunArgs) :
  slurm_script w a
  = (write_lines ("#!/bin/bash" :: directives a ++ removelast (body_lines a))
       ++ "# Run your Python script or other commands")
      ++ String LF (command' w a ++ String LF "").
Proof.
  rewrite slurm_script_write_lines.
  change ("#!/bin/bash" :: directives a ++ body_lines a ++ [command' w a])%list
    with (("#!/bin/bash" :: directives a ++ removelast (body_lines a))
            ++ ["# Run your Python script or other commands"; command' w a])%list.
  rewrite write_lines_app. cbn [write_lines]. unfold nl.
  rewrite !append_assoc, append_nil_r. reflexivity.
Qed.

End FinalLine.

(** C3.  The script that [run] hands to [sbatch] ends with the command on a
    line of its own: [python ] followed by the argument when the argument
    names an existing file, the argument itself otherwise.  For an argument
    without line feeds that line is the last line of the script. *)
Theorem run_command_line (w : World) (a : RunArgs) (script : string) :
  submitted_script (run w a) = Some script ->
  let line := if isfile w (command a) then "python " ++ command a
              else command a in
  (exists head, script = head ++ nl ++ line ++ nl)
  /\ (no_lf (command a) -> final_line script = line).
Proof.
  intros Hs line. rewrite submitted_script_run in Hs.
  destruct (isfile w (logfile' a)); [discriminate|].
  injection Hs as <-. rewrite slurm_script_tail.
  change (command' w a) with line. split.
  - eexists. unfold nl. cbn [String.append]. reflexivity.
  - intros Hc. apply final_line_last. subst line.
    destruct (isfile w (command a)); [|exact Hc].
    apply no_lf_append; [reflexivity | exact Hc].
Qed.

Lemma run_command_line_witness :
  (exists head,
     slurm_script Sample.world Sample.args = head ++ nl ++ "python train.py" ++ nl)
  /\ (no_lf "train.py"
      -> final_line (slurm_script Sample.world Sample.args) = "python train.py").
Proof.
  apply (run_command_line Sample.world Sample.args).
  vm_compute. reflexivity.
Defined.

(** The two commands of the specification's example. *)
Example final_line_script_file :
  final_line (slurm_script Sample.world Sample.args) = "python train.py".
Proof. vm_compute. reflexivity. Qed.

(** A file named through [.] is a file all the same. *)
Example final_line_dot_script_file :
  final_line (slurm_script Sample.world Sample.args_dot_command)
  = "python ./train.py".
Proof. vm_compute. reflexivity. Qed.

Example final_line_quoted_command :
  final_line (slurm_script Sample.world Sample.args_quoted)
  = "python train.py --flag".
Proof. vm_compute. reflexivity. Qed.

(** ** [run]: the directive lines *)

(** C5, as stated: at the default options the output line is not of the bare
    form [#SBATCH --output=<path>]; the template puts a remark after the
    path. *)
Lemma default_output_directive_not_bare :
  ~ renders_bare_directives Sample.world Sample.args.
Proof.
  unfold renders_bare_directives. vm_compute. discriminate.
Qed.

(** C5, amended.  When no value holds a line feed, the script starts with the
    interpreter line, followed by exactly the ten directive lines in template
    order (job-name, qos, partition, account, ntasks, cpus-per-task, mem,
    gpus, time, output), then a blank line.  Each directive line is
    [#SBATCH --key=value] with memory as [<value>gb]; the output line alone
    goes on with the remark [ # Redirect the output to a file]. *)
Theorem directive_lines_in_template_order (w : World) (a : RunArgs) :
  one_line_fields a ->
  firstn 12 (lines (slurm_script w a))
  = [ "#!/bin/bash";
      "#SBATCH --job-name=" ++ job a;
      "#SBATCH --qos=" ++ (if m a then "huge-long" else qos a);
      "#SBATCH --partition=" ++ part a;
      "#SBATCH --account=" ++ acc a;
      "#SBATCH --ntasks=" ++ str_of_int (ntasks a);
      "#SBATCH --cpus-per-task=" ++ (if m a then "4" else str_of_int (cpu a));
      "#SBATCH --mem=" ++ (if m a then "32" else mem a) ++ "gb";
      "#SBATCH --gpus=" ++ (if m a then "rtxa4000:4" else gpu a);
      "#SBATCH --time=" ++ time a;
      "#SBATCH --output=" ++ str (of_opt (pwd a)) ++ "/"
         ++ (if String.eqb (logfile a) "" then job a ++ ".log" else logfile a)
         ++ " # Redirect the output to a file";
      "" ].
Proof.
  intros H. rewrite (script_head_lines w a H).
  unfold directives, output_path, logfile'.
  rewrite !append_assoc. reflexivity.
Qed.

Lemma directive_lines_in_template_order_witness :
  firstn 12 (lines (slurm_script Sample.world Sample.args))
  = [ "#!/bin/bash";
      "#SBATCH --job-name=default";
      "#SBATCH --qos=default";
      "#SBATCH --partition=clip";
      "#SBATCH --account=clip";
      "#SBATCH --ntasks=1";
      "#SBATCH --cpus-per-task=1";
      "#SBATCH --mem=32gb";
      "#SBATCH --gpus=rtxa4000:1";
      "#SBATCH --time=10:00";
      "#SBATCH --output=/home/u/default.log # Redirect the output to a file";
      "" ].
Proof.
  apply (directive_lines_in_template_order Sample.world Sample.args).
  split; [|intros _]; repeat constructor.
Defined.

(** ** [setup] *)

Section Setup.

Lemma setup_guarded (w : World) :
  getenv w "BATC_SETUP" = Some "true" ->
  setup w = (Done, w, [Echo "Setup has already been completed"]).
Proof.
  intros H. unfold setup. now rewrite bool_decide_eq_true_2.
Qed.

Lemma getenv_setenv (w : World) (k v : string) :
  getenv (setenv w k v) k = Some v.
Proof. unfold getenv, setenv. cbn [env]. apply lookup_insert_eq. Qed.

End Setup.

(** C7.  When [BATC_SETUP] is [true] in the environment, [setup] only
    reports that the set-up was already completed: no install command is
    run, nothing is appended to the shell profile, and the world is left as
    it was.  Hence, once the guard is set after a first [setup], a second
    [setup] writes nothing either. *)
Theorem setup_is_noop_under_guard :
  (forall w : World,
     getenv w "BATC_SETUP" = Some "true" ->
     setup w = (Done, w, [Echo "Setup has already been completed"]))
  /\ (forall w : World,
        let w1 := setenv (world_of (setup w)) "BATC_SETUP" "true" in
        setup w1 = (Done, w1, [Echo "Setup has already been completed"])).
Proof.
  split.
  - exact setup_guarded.
  - intros w w1. apply setup_guarded. apply getenv_setenv.
Qed.

Lemma setup_is_noop_under_guard_witness :
  let w1 := setenv (world_of (setup Sample.world)) "BATC_SETUP" "true" in
  events_of (setup Sample.world)
  = [ System "pip install conda";
      Append "/home/u/.bashrc"
        (nl ++ "# Added by <batc>" ++ nl
            ++ "alias scratch=" ++ String DQUOTE "cd /fs/nexus-scratch/u/"
            ++ String DQUOTE nl
            ++ "export BATC_SETUP=true" ++ nl
            ++ "# End of <batc>" ++ nl);
      System "source ~/.bashrc" ]
  /\ setup w1 = (Done, w1, [Echo "Setup has already been completed"]).
Proof.
  split.
  - vm_compute. reflexivity.
  - apply (proj1 setup_is_noop_under_guard). vm_compute. reflexivity.
Defined.

(** ** The module level: the host name *)

Section Host.

Lemma search_nexus_None (s : string) : ~ nexus_host s -> search_nexus s = None.
Proof.
  intros Hn. unfold search_nexus.
  destruct (strip_prefix "nexus" s) as [rest|] eqn:E; [|reflexivity].
  apply strip_prefix_Some in E.
  destruct rest as [|c rest]; [reflexivity|].
  cbn [take_while]. destruct (is_alpha c) eqn:Ec; [|reflexivity].
  exfalso. apply Hn. exists c, rest. split; assumption.
Qed.

Lemma search_nexus_Some (s : string) :
  nexus_host s -> exists name, search_nexus s = Some name.
Proof.
  intros (c & rest & -> & Hc). unfold search_nexus.
  rewrite strip_prefix_append. cbn [take_while]. rewrite Hc. eauto.
Qed.

End Host.

(** C8.  On a host whose fully-qualified name is not [nexus] followed by at
    least one letter, the program dies with the unhandled [AttributeError]
    of the module level, whatever command was asked for ([setup] included):
    no command runs, there is no event and the world is untouched. *)
Theorem main_fails_off_nexus (w : World) (c : cli) :
  ~ nexus_host (fqdn w) ->
  main w c = (Raised AttributeError, w, []).
Proof.
  intros H. unfold main, partition_acc_name.
  now rewrite (search_nexus_None _ H).
Qed.

Lemma main_fails_off_nexus_witness :
  main (Sample.set_fqdn Sample.world "login01.umiacs.umd.edu") CliSetup
  = (Raised AttributeError,
     Sample.set_fqdn Sample.world "login01.umiacs.umd.edu", []).
Proof.
  apply (main_fails_off_nexus
           (Sample.set_fqdn Sample.world "login01.umiacs.umd.edu") CliSetup).
  intros (c & rest & H & _). discriminate H.
Defined.

(** On a Nexus host the module level succeeds and the command runs. *)
Example main_on_nexus_runs_setup :
  main Sample.world CliSetup = setup Sample.world.
Proof. reflexivity. Qed.

(** ** The default of [--conda_env] *)

(** C6, at a concrete input: with [CONDA_DEFAULT_ENV=base] in the
    environment and no [--conda_env], [batc run train.py] completes and the
    script it submits activates [None]: the default is read from the
    variable named [$CONDA_DEFAULT_ENV], dollar sign included, which is not
    set. *)
Theorem conda_env_default_misses_active_env :
  getenv Sample.world "CONDA_DEFAULT_ENV" = Some "base"
  /\ Sample.opts.(o_conda_env) = None
  /\ outcome_of (main Sample.world (CliRun Sample.opts)) = Done
  /\ option_map (fun script => nth_error (lines script) 15)
       (submitted_script (main Sample.world (CliRun Sample.opts)))
     = Some (Some "conda activate None").
Proof. repeat split; vm_compute; reflexivity. Qed.

(** The default is the value of the variable with the dollar sign in its
    name, whatever [CONDA_DEFAULT_ENV] holds. *)
Lemma conda_env_default (w : World) (name : string) (o : RunOpts) :
  o_conda_env o = None ->
  conda_env (with_defaults w name o) = getenv w "$CONDA_DEFAULT_ENV".
Proof. intros H. unfold with_defaults. cbn [conda_env]. now rewrite H. Qed.

(** ** [run]: where the record goes *)

Section Record.

Lemma run_submitted (w : World) (a : RunArgs) (out err : string) :
  isfile w (logfile' a) = false ->
  sbatch w (slurm_script w a) = Some (out, err) ->
  run w a
  = let script := slurm_script w a in
    let submitted :=
      [TempFile (tmp_name w) script; Spawn ["sbatch"; tmp_name w]] in
    match getenv w "PWD" with
    | None => (Raised TypeError, w, submitted)
    | Some d =>
        let path := path_join d (datafile' a) in
        let text := record_text w script out err in
        if openable w (abspath w path)
        then (Done, write_file w path text,
              (submitted ++ [WriteFile path text])%list)
        else (Raised OSError, w, submitted)
    end.
Proof. intros Hl Hs. unfold run. now rewrite Hl, Hs. Qed.

Lemma run_without_PWD (w : World) (a : RunArgs) :
  getenv w "PWD" = None ->
  world_of (run w a) = w /\ outcome_of (run w a) <> Done.
Proof.
  intros H. unfold run.
  destruct (isfile w (logfile' a)); [now split|].
  destruct (sbatch w (slurm_script w a)) as [[out err]|]; [|now split].
  rewrite H. now split.
Qed.

Lemma run_write_path (w : World) (a : RunArgs) (d p t : string) :
  getenv w "PWD" = Some d ->
  In (WriteFile p t) (events_of (run w a)) ->
  p = path_join d (datafile' a).
Proof.
  intros H. unfold run.
  destruct (isfile w (logfile' a)); [intros []|].
  destruct (sbatch w (slurm_script w a)) as [[out err]|].
  - rewrite H. destruct (openable w _); cbn.
    + intros [?|[?|[E|[]]]]; try discriminate. now injection E as <- _.
    + intros [?|[?|[]]]; discriminate.
  - cbn. intros [?|[]]; discriminate.
Qed.

End Record.

(** C10.  The record goes to the path made of the [PWD] environment variable
    and the data-file name ([job.data] when none was given); the [--pwd]
    option plays no part in it.  With [PWD] unset, [run] never completes and
    writes no file; in particular, once [sbatch] has run, it dies with the
    [TypeError] of [os.path.join(None, ...)]: the job is submitted and no
    record exists. *)
Theorem record_path_from_PWD_variable (w : World) (a : RunArgs) :
  let name := if String.eqb (datafile a) "" then job a ++ ".data"
              else datafile a in
  let submitted :=
    [TempFile (tmp_name w) (slurm_script w a); Spawn ["sbatch"; tmp_name w]] in
  (forall d out err,
     getenv w "PWD" = Some d ->
     isfile w (logfile' a) = false ->
     sbatch w (slurm_script w a) = Some (out, err) ->
     openable w (abspath w (path_join d name)) = true ->
     run w a
     = (Done,
        write_file w (path_join d name)
          (record_text w (slurm_script w a) out err),
        (submitted
           ++ [WriteFile (path_join d name)
                 (record_text w (slurm_script w a) out err)])%list))
  /\ (forall d p t,
        getenv w "PWD" = Some d ->
        In (WriteFile p t) (events_of (run w a)) -> p = path_join d name)
  /\ (getenv w "PWD" = None ->
      world_of (run w a) = w
      /\ outcome_of (run w a) <> Done
      /\ forall out err,
           isfile w (logfile' a) = false ->
           sbatch w (slurm_script w a) = Some (out, err) ->
           run w a = (Raised TypeError, w, submitted)).
Proof.
  intros name submitted. subst name submitted.
  change (if String.eqb (datafile a) "" then job a ++ ".data" else datafile a)
    with (datafile' a).
  split; [|split].
  - intros d out err Hd Hl Hs Ho.
    rewrite (run_submitted w a out err Hl Hs). cbn zeta. rewrite Hd.
    now rewrite Ho.
  - intros d p t Hd Hin. exact (run_write_path w a d p t Hd Hin).
  - intros Hn. destruct (run_without_PWD w a Hn) as [Hw Ho].
    split; [exact Hw|]. split; [exact Ho|].
    intros out err Hl Hs.
    rewrite (run_submitted w a out err Hl Hs). cbn zeta. now rewrite Hn.
Qed.

Lemma record_path_from_PWD_variable_witness :
  run (Sample.set_env Sample.world (delete "PWD" (env Sample.world)))
      Sample.args_scratch
  = (Raised TypeError,
     Sample.set_env Sample.world (delete "PWD" (env Sample.world)),
     [ TempFile "/tmp/tmpabc"
         (slurm_script
            (Sample.set_env Sample.world (delete "PWD" (env Sample.world)))
            Sample.args_scratch);
       Spawn ["sbatch"; "/tmp/tmpabc"] ]).
Proof.
  refine (proj2 (proj2 (proj2 (proj2 (record_path_from_PWD_variable
            (Sample.set_env Sample.world (delete "PWD" (env Sample.world)))
            Sample.args_scratch)) _))
            ("Submitted batch job 12345" ++ nl) "" _ _).
  - vm_compute. reflexivity.
  - vm_compute. reflexivity.
  - reflexivity.
Defined.

(** With [PWD=/home/u] and [--pwd /scratch/u] the record lands under
    [/home/u]. *)
Example record_ignores_pwd_option :
  exists text,
    events_of (run Sample.world Sample.args_scratch)
    = [ TempFile "/tmp/tmpabc" (slurm_script Sample.world Sample.args_scratch);
        Spawn ["sbatch"; "/tmp/tmpabc"];
        WriteFile "/home/u/default.data" text ].
Proof. eexists. vm_compute. reflexivity. Qed.

(** ** [run]: which file the log-file test looks at *)

Section CheckedPath.

Lemma isfile_set_files (w : World) (fs : gmap string string) (p : string) :
  files w !! abspath w p = fs !! abspath w p ->
  isfile (set_files w fs) p = isfile w p.
Proof.
  intros H. unfold isfile. destruct (String.eqb p ""); [reflexivity|].
  change (abspath (set_files w fs) p) with (abspath w p).
  change (files (set_files w fs)) with fs. now rewrite H.
Qed.

End CheckedPath.

(** C9, as stated: in the root directory with [--pwd ""], the option differs
    from the working directory and yet the tested file and the output file
    are both [/default.log]. *)
Lemma check_reaches_output_file_at_root :
  ~ check_misses_output_file Sample.world_at_root Sample.args_empty_pwd.
Proof.
  unfold check_misses_output_file. intros H. apply H.
  - vm_compute. discriminate.
  - vm_compute. reflexivity.
Qed.

(** There the existence of the output file decides the verdict. *)
Example verdict_at_root :
  rejected (run Sample.world_at_root Sample.args_empty_pwd) = true
  /\ rejected (run (set_files Sample.world_at_root
                      (delete "/default.log" (files Sample.world_at_root)))
                   Sample.args_empty_pwd) = false.
Proof. split; vm_compute; reflexivity. Qed.

(** The same happens from [/home/u] with [--pwd .]: the output path
    [./default.log] names the tested file. *)
Example check_reaches_output_file_with_dot_pwd :
  str (of_opt (pwd Sample.args_dot_pwd)) <> cwd Sample.world
  /\ output_path Sample.args_dot_pwd = "./default.log"
  /\ output_file Sample.world Sample.args_dot_pwd
     = checked_path Sample.world Sample.args_dot_pwd.
Proof. split; [|split]; vm_compute; [discriminate | reflexivity..]. Qed.

(** C9, amended.  The existence test looks at the file the log-file name
    names from the working directory and at nothing else: [run] is rejected
    exactly when that file exists, whatever [--pwd] is.  Whenever the output
    path [{pwd}/{logfile}] names another file than the tested one, the test
    does not examine the file the job will write: creating or removing a
    file there leaves the verdict unchanged. *)
Theorem logfile_check_ignores_pwd (w : World) (a : RunArgs) :
  output_file w a <> checked_path w a ->
  (rejected (run w a) = true <-> is_Some (files w !! checked_path w a))
  /\ (forall p, rejected (run w (with_pwd a p)) = rejected (run w a))
  /\ (forall text,
        rejected (run (set_files w (<[output_file w a := text]> (files w))) a)
        = rejected (run w a))
  /\ rejected (run (set_files w (delete (output_file w a) (files w))) a)
     = rejected (run w a).
Proof.
  intros Hne. split; [|split; [|split]].
  - rewrite rejected_run. unfold checked_path. split.
    + unfold isfile. destruct (String.eqb (logfile' a) ""); [discriminate|].
      apply bool_decide_eq_true.
    + apply isfile_true, logfile'_nonempty.
  - intros p. rewrite !rejected_run. reflexivity.
  - intros text. rewrite !rejected_run. apply isfile_set_files.
    symmetry. apply lookup_insert_ne. exact Hne.
  - rewrite !rejected_run. apply isfile_set_files.
    symmetry. apply lookup_delete_ne. exact Hne.
Qed.

Lemma logfile_check_ignores_pwd_witness :
  (rejected (run Sample.world Sample.args_scratch) = true
   <-> is_Some (files Sample.world
                  !! checked_path Sample.world Sample.args_scratch))
  /\ (forall p,
        rejected (run Sample.world (with_pwd Sample.args_scratch p))
        = rejected (run Sample.world Sample.args_scratch))
  /\ (forall text,
        rejected (run (set_files Sample.world
                         (<[output_file Sample.world Sample.args_scratch := text]>
                            (files Sample.world)))
                      Sample.args_scratch)
        = rejected (run Sample.world Sample.args_scratch))
  /\ rejected (run (set_files Sample.world
                      (delete (output_file Sample.world Sample.args_scratch)
                         (files Sample.world)))
                   Sample.args_scratch)
     = rejected (run Sample.world Sample.args_scratch).
Proof.
  apply (logfile_check_ignores_pwd Sample.world Sample.args_scratch).
  vm_compute. discriminate.
Defined.

(** With [--pwd /scratch/u] from [/home/u], the job writes
    [/scratch/u/default.log] while the test looked at
    [/home/u/default.log]. *)
Example paths_with_scratch_pwd :
  output_file Sample.world Sample.args_scratch = "/scratch/u/default.log"
  /\ checked_path Sample.world Sample.args_scratch = "/home/u/default.log".
Proof. split; vm_compute; reflexivity. Qed.

(** ** [run]: the job id in the record *)

(** *** The pattern on the [repr] of the captured bytes *)

Section ReprSearch.

Ltac each_ascii c :=
  destruct c as [[] [] [] [] [] [] [] []]; vm_compute; try reflexivity;
  try discriminate.

Ltac each_quote q :=
  let H := fresh in
  intros H; apply orb_prop in H as [H|H]; apply Ascii.eqb_eq in H; subst q.

(** A character of the pattern is written as itself. *)
Lemma repr_byte_marker (q c : ascii) :
  is_quote q = true -> marker_char c = true -> repr_byte q c = String c "".
Proof. each_quote q; each_ascii c. Qed.

(** Any other character is written starting with a character that is not
    of the pattern, and without a capital S. *)
Lemma repr_byte_other (q c : ascii) :
  is_quote q = true -> marker_char c = false ->
  match repr_byte q c with
  | String d _ => marker_char d = false
  | "" => False
  end /\ mem_char "S" (repr_byte q c) = false.
Proof. each_quote q; each_ascii c; intros _; split; reflexivity. Qed.

Lemma marker_char_quote (q : ascii) :
  is_quote q = true -> marker_char q = false.
Proof. each_quote q; reflexivity. Qed.

Lemma marker_char_eqb (c d : ascii) :
  marker_char c = true -> marker_char d = false -> Ascii.eqb c d = false.
Proof.
  intros Hc Hd. destruct (Ascii.eqb_spec c d) as [->|]; [|reflexivity].
  rewrite Hc in Hd. discriminate.
Qed.

Lemma marker_char_digit (c : ascii) : is_digit c = true -> marker_char c = true.
Proof. intros H. unfold marker_char. now rewrite H. Qed.

Lemma strip_prefix_repr (q : ascii) (p b : string) :
  is_quote q = true ->
  (forall c, mem_char c p = true -> marker_char c = true) ->
  strip_prefix p (repr_body q b) = option_map (repr_body q) (strip_prefix p b).
Proof.
  intros Hq. revert b. induction p as [|pc p IH]; intros b Hp.
  - reflexivity.
  - assert (Hpc : marker_char pc = true).
    { apply Hp. cbn [mem_char]. now rewrite Ascii.eqb_refl. }
    assert (Hp' : forall c, mem_char c p = true -> marker_char c = true).
    { intros c Hc. apply Hp. cbn [mem_char]. rewrite Hc.
      now destruct (Ascii.eqb c pc). }
    destruct b as [|c b]; cbn [repr_body strip_prefix].
    + now rewrite (marker_char_eqb pc q Hpc (marker_char_quote q Hq)).
    + destruct (marker_char c) eqn:Hc.
      * rewrite (repr_byte_marker q c Hq Hc). cbn [String.append].
        destruct (Ascii.eqb pc c); [apply IH; exact Hp' | reflexivity].
      * destruct (repr_byte_other q c Hq Hc) as [Hd _].
        destruct (repr_byte q c) as [|d t]; [contradiction|].
        cbn [String.append].
        now rewrite (marker_char_eqb pc d Hpc Hd), (marker_char_eqb pc c Hpc Hc).
Qed.

Lemma take_while_digit_repr (q : ascii) (b : string) :
  is_quote q = true ->
  take_while is_digit (repr_body q b) = take_while is_digit b.
Proof.
  intros Hq. induction b as [|c b IH]; cbn [repr_body take_while].
  - pose proof (marker_char_quote q Hq) as H. unfold marker_char in H.
    apply orb_false_elim in H as [H _]. now rewrite H.
  - destruct (marker_char c) eqn:Hc.
    + rewrite (repr_byte_marker q c Hq Hc). cbn [String.append take_while].
      now rewrite IH.
    + destruct (repr_byte_other q c Hq Hc) as [Hd _].
      destruct (repr_byte q c) as [|d t]; [contradiction|].
      cbn [String.append take_while].
      unfold marker_char in Hc, Hd.
      apply orb_false_elim in Hc as [Hc _]. apply orb_false_elim in Hd as [Hd _].
      now rewrite Hc, Hd.
Qed.

Lemma pid_here_repr (q : ascii) (b : string) :
  is_quote q = true -> pid_here (repr_body q b) = pid_here b.
Proof.
  intros Hq. unfold pid_here.
  rewrite (strip_prefix_repr q _ b Hq).
  - destruct (strip_prefix _ b) as [rest|]; [|reflexivity].
    cbn [option_map]. now rewrite take_while_digit_repr.
  - intros c Hc. unfold marker_char. change job_marker with "Submitted batch job ".
    rewrite Hc. apply orb_true_r.
Qed.

Lemma pid_here_other (c : ascii) (s : string) :
  Ascii.eqb "S" c = false -> pid_here (String c s) = None.
Proof. intros H. unfold pid_here. cbn [strip_prefix]. now rewrite H. Qed.

Lemma search_pid_skip (e r : string) :
  mem_char "S" e = false -> search_pid (e ++ r) = search_pid r.
Proof.
  induction e as [|d e IH]; cbn [mem_char String.append]; intros H.
  - reflexivity.
  - destruct (Ascii.eqb "S" d) eqn:Ed; [discriminate|].
    cbn [search_pid]. rewrite (pid_here_other d _ Ed). now apply IH.
Qed.

Lemma search_pid_cons (c : ascii) (s : string) :
  search_pid (String c s)
  = match pid_here (String c s) with
    | Some d => Some d
    | None => search_pid s
    end.
Proof. reflexivity. Qed.

Lemma search_pid_repr_body (q : ascii) (b : string) :
  is_quote q = true -> search_pid (repr_body q b) = search_pid b.
Proof.
  intros Hq. induction b as [|c b IH].
  - revert Hq. each_quote q; reflexivity.
  - rewrite (search_pid_cons c b), <- (pid_here_repr q (String c b) Hq).
    cbn [repr_body]. destruct (marker_char c) eqn:Hc.
    + rewrite (repr_byte_marker q c Hq Hc). cbn [String.append].
      now rewrite search_pid_cons, IH.
    + destruct (repr_byte_other q c Hq Hc) as [Hd HS].
      rewrite (search_pid_skip _ _ HS), IH.
      destruct (repr_byte q c) as [|d t]; [contradiction|].
      cbn [String.append]. rewrite pid_here_other; [reflexivity|].
      apply marker_char_eqb; [reflexivity | exact Hd].
Qed.

Lemma is_quote_repr_quote (b : string) : is_quote (repr_quote b) = true.
Proof. unfold repr_quote. now destruct (_ && _). Qed.

(** Searching the [repr] of the bytes finds what searching the bytes
    finds. *)
Lemma search_pid_bytes_repr (b : string) :
  search_pid (str (PBytes b)) = search_pid b.
Proof.
  cbn [str]. unfold bytes_repr.
  pose proof (is_quote_repr_quote b) as Hq.
  change (String "b" (String (repr_quote b) (repr_body (repr_quote b) b)))
    with (String "b" (String (repr_quote b) "") ++ repr_body (repr_quote b) b).
  rewrite search_pid_skip; [now apply search_pid_repr_body|].
  revert Hq. generalize (repr_quote b) as q. intros q.
  each_quote q; reflexivity.
Qed.

End ReprSearch.

(** *** The leftmost match *)

Section SearchSpec.

Lemma pid_here_Some (s d : string) :
  pid_here s = Some d -> marker_at s "".
Proof.
  unfold pid_here, marker_at.
  destruct (strip_prefix "Submitted batch job " s) as [rest|] eqn:E;
    [|discriminate].
  apply strip_prefix_Some in E.
  destruct rest as [|c rest]; [discriminate|].
  cbn [take_while]. destruct (is_digit c) eqn:Hc; [|discriminate].
  intros _. exists c, rest. split; [exact E | exact Hc].
Qed.

Lemma pid_here_marker (ds post : string) :
  ds <> "" -> all_digits ds = true -> stops_digits post ->
  pid_here (job_marker ++ ds ++ post) = Some ds.
Proof.
  intros Hne Hd Hp. unfold pid_here. change "Submitted batch job " with job_marker.
  rewrite strip_prefix_append, (take_while_digits ds post Hd Hp).
  destruct ds; [contradiction | reflexivity].
Qed.

Lemma marker_at_cons (c : ascii) (s pre : string) :
  marker_at s pre -> marker_at (String c s) (String c pre).
Proof.
  intros (d & post & -> & Hd). exists d, post. split; [reflexivity | exact Hd].
Qed.

Lemma search_pid_first (out pre ds : string) :
  first_job_id out pre ds -> search_pid out = Some ds.
Proof.
  intros ((post & -> & Hp) & Hne & Hd & Hmin).
  induction pre as [|c pre IH].
  - cbn [String.append]. 
    pose proof (pid_here_marker ds post Hne Hd Hp) as H.
    destruct (job_marker ++ ds ++ post) as [|x s]; [discriminate H|].
    now rewrite search_pid_cons, H.
  - cbn [String.append]. rewrite search_pid_cons.
    destruct (pid_here _) as [d|] eqn:E.
    + apply pid_here_Some in E. apply Hmin in E. cbn in E. lia.
    + apply IH. intros pre' Hm.
      apply (marker_at_cons c) in Hm. apply Hmin in Hm. cbn in Hm. lia.
Qed.

Lemma search_pid_none (out : string) :
  (forall pre, ~ marker_at out pre) -> search_pid out = None.
Proof.
  induction out as [|c out IH]; intros H.
  - reflexivity.
  - rewrite search_pid_cons. destruct (pid_here _) as [d|] eqn:E.
    + apply pid_here_Some in E. now apply H in E.
    + apply IH. intros pre Hm. apply (H (String c pre)).
      now apply marker_at_cons.
Qed.

Lemma no_lf_digits (ds : string) : all_digits ds = true -> no_lf ds.
Proof.
  unfold no_lf. induction ds as [|c ds IH]; cbn [all_digits mem_char].
  - reflexivity.
  - intros H. apply andb_prop in H as [Hc Hd].
    destruct (Ascii.eqb_spec LF c) as [<-|_]; [discriminate Hc | now apply IH].
Qed.

(** The record starts with a blank line, the title and the job-id line. *)
Lemma record_text_head (w : World) (script out err : string) :
  exists rest,
    record_text w script out err
    = write_lines [""; "# Details <batc> ::"; "PID : " ++ pid_of out] ++ rest.
Proof.
  exists (write_lines
            (map str [ PStr " "; PStr ("Time of job submission: " ++ now w);
                       PStr " "; PStr "Sbatch script:"; PStr script; PStr " ";
                       PStr "Std Out From Subprocess (If Any):"; PBytes out;
                       PStr "Std Err (If Any):"; PBytes err ])).
  unfold record_text. cbn [map write_lines str]. unfold nl.
  rewrite !append_assoc, ?append_nil_r. reflexivity.
Qed.

Lemma record_text_lines (w : World) (script out err : string) :
  no_lf (pid_of out) ->
  nth_error (lines (record_text w script out err)) 2
  = Some ("PID : " ++ pid_of out).
Proof.
  intros H. destruct (record_text_head w script out err) as [rest ->].
  rewrite lines_write_lines; [reflexivity|].
  repeat constructor. apply no_lf_append; [reflexivity | exact H].
Qed.

End SearchSpec.

(** C4.  When [run] gets as far as writing the record (the log file does not
    exist, [sbatch] ran, [PWD] is set and the data file can be opened), it
    completes without error and the data file's third line, after the blank
    line and the title, is the job-id line: [PID : ] followed by exactly the
    digits captured by the leftmost [Submitted batch job <digits>] in the
    captured stdout, or [PID : Unknown PID] when stdout holds no such
    text. *)
Theorem record_holds_job_id (w : World) (a : RunArgs) (d out err : string) :
  isfile w (logfile' a) = false ->
  sbatch w (slurm_script w a) = Some (out, err) ->
  getenv w "PWD" = Some d ->
  openable w (abspath w (path_join d (datafile' a))) = true ->
  exists text,
    outcome_of (run w a) = Done
    /\ files (world_of (run w a)) !! abspath w (path_join d (datafile' a))
       = Some text
    /\ (forall pre ds,
          first_job_id out pre ds ->
          nth_error (lines text) 2 = Some ("PID : " ++ ds))
    /\ ((forall pre, ~ marker_at out pre) ->
        nth_error (lines text) 2 = Some "PID : Unknown PID").
Proof.
  intros Hl Hs Hd Ho. rewrite (run_submitted w a out err Hl Hs).
  cbn zeta. rewrite Hd, Ho.
  exists (record_text w (slurm_script w a) out err).
  split; [reflexivity|]. split; [apply lookup_insert_eq|]. split.
  - intros pre ds Hf.
    assert (Hpid : pid_of out = ds).
    { unfold pid_of. now rewrite search_pid_bytes_repr, (search_pid_first _ _ _ Hf). }
    rewrite record_text_lines; rewrite Hpid; [reflexivity|].
    apply no_lf_digits. apply Hf.
  - intros Hn.
    assert (Hpid : pid_of out = "Unknown PID").
    { unfold pid_of. now rewrite search_pid_bytes_repr, (search_pid_none _ Hn). }
    rewrite record_text_lines; rewrite Hpid; reflexivity.
Qed.

Lemma record_holds_job_id_witness :
  exists text,
    outcome_of (run Sample.world Sample.args) = Done
    /\ files (world_of (run Sample.world Sample.args))
         !! abspath Sample.world (path_join "/home/u" (datafile' Sample.args))
       = Some text
    /\ (forall pre ds,
          first_job_id ("Submitted batch job 12345" ++ nl) pre ds ->
          nth_error (lines text) 2 = Some ("PID : " ++ ds))
    /\ ((forall pre, ~ marker_at ("Submitted batch job 12345" ++ nl) pre) ->
        nth_error (lines text) 2 = Some "PID : Unknown PID").
Proof.
  apply (record_holds_job_id Sample.world Sample.args "/home/u"
           ("Submitted batch job 12345" ++ nl) "");
    vm_compute; reflexivity.
Defined.

(** The output of the specification's example has its leftmost match at the
    very start, with digits [12345]. *)
Example first_job_id_12345 :
  first_job_id ("Submitted batch job 12345" ++ nl) "" "12345".
Proof.
  split; [|split; [|split]].
  - exists nl. split; reflexivity.
  - discriminate.
  - reflexivity.
  - intros pre _. cbn. lia.
Qed.

Example record_line_12345 :
  option_map (fun text => nth_error (lines text) 2)
    (files (world_of (run Sample.world Sample.args)) !! "/home/u/default.data")
  = Some (Some "PID : 12345").
Proof. vm_compute. reflexivity. Qed.

Example record_line_unknown :
  let w := Sample.set_sbatch Sample.world Sample.sbatch_refuses in
  outcome_of (run w Sample.args) = Done
  /\ option_map (fun text => nth_error (lines text) 2)
       (files (world_of (run w Sample.args)) !! "/home/u/default.data")
     = Some (Some "PID : Unknown PID").
Proof. split; vm_compute; reflexivity. Qed.

(** The search runs on the [repr] of the bytes: quotes and bytes that are
    escaped there do not disturb it, and the leftmost match wins. *)
Example pid_of_escaped_output :
  pid_of ("it's" ++ nl ++ "Submitted batch job 77; Submitted batch job 8")
  = "77"
  /\ str (PBytes ("it's" ++ nl ++ "job 7"))
     = "b" ++ String DQUOTE "it's\njob 7" ++ String DQUOTE "".
Proof. split; vm_compute; reflexivity. Qed.

(** * Further properties of the two commands *)

(** ** [run]: when it rejects, and what it may change *)

(** X1.  [run] ends in the usage error exactly when a regular file exists at
    the log-file name (the one given, or [job.log] when none was given),
    looked up from the working directory; an existing data file, command
    file or anything else never causes it. *)
Theorem run_rejected_iff_logfile_exists (w : World) (a : RunArgs) :
  (rejected (run w a) = true
   <-> is_Some (files w !! abspath w
                  (if String.eqb (logfile a) "" then job a ++ ".log"
                   else logfile a)))
  /\ (rejected (run w a) = true
      <-> run w a
          = (UsageError "--logfile"
               "File with the same name as logfile already exists", w, [])).
Proof.
  change (if String.eqb (logfile a) "" then job a ++ ".log" else logfile a)
    with (logfile' a).
  rewrite rejected_run. split; split.
  - unfold isfile. destruct (String.eqb (logfile' a) ""); [discriminate|].
    apply bool_decide_eq_true.
  - apply isfile_true, logfile'_nonempty.
  - apply run_rejects.
  - intros H. rewrite <- rejected_run, H. reflexivity.
Qed.

Section RunFrame.

Lemma run_cases (w : World) (a : RunArgs) :
  run w a = (UsageError "--logfile"
               "File with the same name as logfile already exists", w, [])
  \/ run w a = (Raised OSError, w, [TempFile (tmp_name w) (slurm_script w a)])
  \/ (exists out err,
        sbatch w (slurm_script w a) = Some (out, err)
        /\ isfile w (logfile' a) = false
        /\ (run w a
            = (Raised TypeError, w,
               [TempFile (tmp_name w) (slurm_script w a);
                Spawn ["sbatch"; tmp_name w]])
            /\ getenv w "PWD" = None
            \/ run w a
               = (Raised OSError, w,
                  [TempFile (tmp_name w) (slurm_script w a);
                   Spawn ["sbatch"; tmp_name w]])
            \/ exists d,
                 getenv w "PWD" = Some d
                 /\ openable w (abspath w (path_join d (datafile' a))) = true
                 /\ run w a
                    = (Done,
                       write_file w (path_join d (datafile' a))
                         (record_text w (slurm_script w a) out err),
                       [TempFile (tmp_name w) (slurm_script w a);
                        Spawn ["sbatch"; tmp_name w];
                        WriteFile (path_join d (datafile' a))
                          (record_text w (slurm_script w a) out err)]))).
Proof.
  unfold run. destruct (isfile w (logfile' a)) eqn:Hl; [now left|]. right.
  destruct (sbatch w (slurm_script w a)) as [[out err]|]; [|now left].
  right. exists out, err. split; [reflexivity|]. split; [reflexivity|].
  destruct (getenv w "PWD") as [d|]; [|now left]. right.
  destruct (openable w _) eqn:Ho; [|now left].
  right. exists d. now repeat split.
Qed.

End RunFrame.

(** X2.  [run] leaves the environment and the working directory alone and
    changes at most one file: whenever a file differs afterwards, the run
    completed and the file is the record at [PWD] joined with the data-file
    name.  A run that does not complete (usage error, [sbatch] cannot be
    started, [PWD] unset, data file cannot be opened) leaves the world
    exactly as it was: there is no partial record. *)
Theorem run_changes_only_the_record (w : World) (a : RunArgs) :
  env (world_of (run w a)) = env w
  /\ cwd (world_of (run w a)) = cwd w
  /\ (outcome_of (run w a) <> Done -> world_of (run w a) = w)
  /\ (forall p,
        files (world_of (run w a)) !! p <> files w !! p ->
        outcome_of (run w a) = Done
        /\ exists d,
             getenv w "PWD" = Some d
             /\ p = abspath w
                      (path_join d (if String.eqb (datafile a) ""
                                    then job a ++ ".data" else datafile a))).
Proof.
  change (if String.eqb (datafile a) "" then job a ++ ".data" else datafile a)
    with (datafile' a).
  destruct (run_cases w a)
    as [E|[E|(out & err & _ & _ & [[E _]|[E|(d & Hd & _ & E)]])]];
    rewrite E; cbn [world_of outcome_of fst snd];
    try (split; [reflexivity|]; split; [reflexivity|];
         split; [reflexivity | intros p Hp; congruence]).
  split; [reflexivity|]. split; [reflexivity|]. split; [congruence|].
  intros p Hp. split; [reflexivity|]. exists d. split; [exact Hd|].
  destruct (decide (abspath w (path_join d (datafile' a)) = p)) as [<-|Hne];
    [reflexivity|].
  exfalso. apply Hp. cbn [write_file set_files files].
  now apply lookup_insert_ne.
Qed.

Lemma run_changes_only_the_record_witness :
  outcome_of (run Sample.world Sample.args) = Done
  /\ exists d,
       getenv Sample.world "PWD" = Some d
       /\ "/home/u/default.data"
          = abspath Sample.world
              (path_join d
                 (if String.eqb (datafile Sample.args) ""
                  then job Sample.args ++ ".data"
                  else datafile Sample.args)).
Proof.
  apply (proj2 (proj2 (proj2
           (run_changes_only_the_record Sample.world Sample.args)))
           "/home/u/default.data").
  vm_compute. discriminate.
Defined.

(** X3.  A run that completes has done exactly this, in this order: written
    the rendered script to the temporary file, started [sbatch] with the
    temporary file's name as its only argument, and written one file, the
    record, whose text is built from that same script and from what that
    [sbatch] printed.  Nothing was echoed, no other process was started. *)
Theorem completed_run_events (w w' : World) (a : RunArgs) (tr : list event) :
  run w a = (Done, w', tr) ->
  exists d out err,
    getenv w "PWD" = Some d
    /\ sbatch w (slurm_script w a) = Some (out, err)
    /\ files w !! checked_path w a = None
    /\ tr = [ TempFile (tmp_name w) (slurm_script w a);
              Spawn ["sbatch"; tmp_name w];
              WriteFile (path_join d (datafile' a))
                (record_text w (slurm_script w a) out err) ]
    /\ w' = write_file w (path_join d (datafile' a))
              (record_text w (slurm_script w a) out err).
Proof.
  intros H.
  destruct (run_cases w a)
    as [E|[E|(out & err & Hs & Hl & [[E _]|[E|(d & Hd & _ & E)]])]];
    rewrite E in H; try discriminate.
  injection H as <- <-. exists d, out, err.
  repeat split; try assumption.
  unfold isfile in Hl.
  destruct (String.eqb_spec (logfile' a) "") as [He|_].
  - now apply logfile'_nonempty in He.
  - apply bool_decide_eq_false in Hl. unfold checked_path.
    destruct (files w !! abspath w (logfile' a)); [|reflexivity].
    exfalso. apply Hl. eauto.
Qed.

Lemma completed_run_events_witness :
  exists d out err,
    getenv Sample.world "PWD" = Some d
    /\ sbatch Sample.world (slurm_script Sample.world Sample.args)
       = Some (out, err)
    /\ files Sample.world !! checked_path Sample.world Sample.args = None
    /\ events_of (run Sample.world Sample.args)
       = [ TempFile (tmp_name Sample.world)
             (slurm_script Sample.world Sample.args);
           Spawn ["sbatch"; tmp_name Sample.world];
           WriteFile (path_join d (datafile' Sample.args))
             (record_text Sample.world
                (slurm_script Sample.world Sample.args) out err) ]
    /\ world_of (run Sample.world Sample.args)
       = write_file Sample.world (path_join d (datafile' Sample.args))
           (record_text Sample.world
              (slurm_script Sample.world Sample.args) out err).
Proof.
  apply (completed_run_events Sample.world
           (world_of (run Sample.world Sample.args)) Sample.args
           (events_of (run Sample.world Sample.args))).
  reflexivity.
Defined.

(** ** [run]: the record *)

Section RecordFacts.

Lemma slurm_script_set_files (w : World) (fs : gmap string string)
    (a : RunArgs) :
  files w !! abspath w (command a) = fs !! abspath w (command a) ->
  slurm_script (set_files w fs) a = slurm_script w a.
Proof.
  intros H. unfold slurm_script, command'.
  now rewrite (isfile_set_files w fs (command a) H).
Qed.

Lemma write_file_set_files (w : World) (fs : gmap string string)
    (p text : string) :
  write_file (set_files w fs) p text
  = set_files w (<[abspath w p := text]> fs).
Proof. reflexivity. Qed.

Lemma all_digits_take_while (s : string) :
  all_digits (take_while is_digit s) = true.
Proof.
  induction s as [|c s IH]; cbn [take_while all_digits]; [reflexivity|].
  destruct (is_digit c) eqn:Hc; cbn [all_digits]; [|reflexivity].
  now rewrite Hc, IH.
Qed.

Lemma take_while_digit_split (s : string) :
  exists post, s = take_while is_digit s ++ post /\ stops_digits post.
Proof.
  induction s as [|c s (post & IH & Hp)]; cbn [take_while].
  - exists "". now split.
  - destruct (is_digit c) eqn:Hc.
    + exists post. split; [|exact Hp]. cbn [String.append]. now rewrite <- IH.
    + exists (String c s). split; [reflexivity | exact Hc].
Qed.

Lemma pid_here_digits (s d : string) :
  pid_here s = Some d ->
  d <> "" /\ all_digits d = true
  /\ exists post, s = job_marker ++ d ++ post /\ stops_digits post.
Proof.
  unfold pid_here.
  destruct (strip_prefix "Submitted batch job " s) as [rest|] eqn:E;
    [|discriminate].
  apply strip_prefix_Some in E.
  pose proof (all_digits_take_while rest) as Hd.
  destruct (take_while_digit_split rest) as (post & Hr & Hp).
  destruct (take_while is_digit rest) as [|c t] eqn:Et; [discriminate|].
  intros H. injection H as <-. split; [discriminate|]. split; [exact Hd|].
  exists post. split; [|exact Hp]. rewrite E, Hr. reflexivity.
Qed.

Lemma marker_at_nil (s : string) : marker_at s "" -> pid_here s <> None.
Proof.
  intros (c & post & -> & Hc). unfold pid_here.
  change ("" ++ job_marker ++ String c post)
    with ("Submitted batch job " ++ String c post).
  rewrite strip_prefix_append. cbn [take_while]. rewrite Hc. discriminate.
Qed.

Lemma marker_at_cons_inv (c : ascii) (s pre : string) :
  marker_at (String c s) pre ->
  pre = "" \/ exists pre', pre = String c pre' /\ marker_at s pre'.
Proof.
  intros (d & post & E & Hd). destruct pre as [|x pre]; [now left|]. right.
  cbn [String.append] in E. injection E as <- E.
  exists pre. split; [reflexivity|]. exists d, post. now split.
Qed.

(** What the search returns is a leftmost match. *)
Lemma search_pid_Some (out ds : string) :
  search_pid out = Some ds -> exists pre, first_job_id out pre ds.
Proof.
  induction out as [|c out IH].
  - discriminate.
  - rewrite search_pid_cons. destruct (pid_here (String c out)) as [d|] eqn:E.
    + intros H. injection H as <-.
      destruct (pid_here_digits _ _ E) as (Hne & Hd & post & Ho & Hp).
      exists "". split; [exists post; now split|].
      split; [exact Hne|]. split; [exact Hd|]. intros pre' _. cbn. lia.
    + intros H. destruct (IH H) as (pre & (post & Ho & Hp) & Hne & Hd & Hmin).
      exists (String c pre). split.
      { exists post. split; [|exact Hp]. cbn [String.append]. now rewrite <- Ho. }
      split; [exact Hne|]. split; [exact Hd|].
      intros pre' Hm.
      destruct (marker_at_cons_inv c out pre' Hm) as [->|(p & -> & Hm')].
      * now apply marker_at_nil in Hm.
      * apply Hmin in Hm'. cbn. lia.
Qed.

End RecordFacts.

Section RecordLines.

Lemma write_lines_cons (l : string) (ls : list string) :
  write_lines (l :: ls) = l ++ String LF (write_lines ls).
Proof. cbn [write_lines]. unfold nl. now rewrite append_assoc. Qed.

Lemma search_pid_None (out : string) :
  search_pid out = None -> forall pre, ~ marker_at out pre.
Proof.
  induction out as [|c out IH]; intros H pre Hm.
  - destruct Hm as (d & post & E & _). destruct pre; discriminate E.
  - rewrite search_pid_cons in H.
    destruct (pid_here (String c out)) eqn:E; [discriminate|].
    destruct (marker_at_cons_inv c out pre Hm) as [->|(p & -> & Hm')].
    + now apply marker_at_nil in Hm.
    + exact (IH H p Hm').
Qed.

Lemma no_lf_pid_of (out : string) : no_lf (pid_of out).
Proof.
  unfold pid_of. destruct (search_pid _) as [d|] eqn:E; [|reflexivity].
  destruct (search_pid_Some _ _ E) as (pre & _ & _ & Hd & _).
  now apply no_lf_digits.
Qed.

Lemma no_lf_repr_byte (q c : ascii) :
  is_quote q = true -> no_lf (repr_byte q c).
Proof.
  intros H. apply orb_prop in H as [H|H]; apply Ascii.eqb_eq in H; subst q;
    destruct c as [[] [] [] [] [] [] [] []]; reflexivity.
Qed.

Lemma no_lf_repr_body (q : ascii) (b : string) :
  is_quote q = true -> no_lf (repr_body q b).
Proof.
  intros Hq. induction b as [|c b IH]; cbn [repr_body].
  - apply orb_prop in Hq as [H|H]; apply Ascii.eqb_eq in H; subst q;
      reflexivity.
  - apply no_lf_append; [now apply no_lf_repr_byte | exact IH].
Qed.

(** The [repr] of captured bytes is a single line, whatever the bytes. *)
Lemma no_lf_bytes_repr (b : string) : no_lf (bytes_repr b).
Proof.
  unfold bytes_repr. pose proof (is_quote_repr_quote b) as Hq.
  change (String "b" (String (repr_quote b) (repr_body (repr_quote b) b)))
    with (String "b" (String (repr_quote b) "") ++ repr_body (repr_quote b) b).
  apply no_lf_append; [|now apply no_lf_repr_body].
  apply orb_prop in Hq as [H|H]; apply Ascii.eqb_eq in H; rewrite H;
    reflexivity.
Qed.

End RecordLines.

(** X4.  The job id in the record is never made up: [pid] is either the
    digits captured by the leftmost [Submitted batch job <digits>] in the
    captured stdout (a non-empty run of decimal digits, taken as far as the
    digits go), or the text [Unknown PID], and the latter only when stdout
    holds no such text at all.  This holds for every byte sequence, although
    the search runs on the [repr] of the bytes. *)
Theorem pid_comes_from_stdout (out : string) :
  (exists pre, first_job_id out pre (pid_of out))
  \/ (pid_of out = "Unknown PID" /\ forall pre, ~ marker_at out pre).
Proof.
  unfold pid_of. rewrite search_pid_bytes_repr.
  destruct (search_pid out) as [d|] eqn:E.
  - left. now apply search_pid_Some.
  - right. split; [reflexivity | now apply search_pid_None].
Qed.

(** X5.  The record is laid out in this order whatever the captured bytes
    are: a blank line, the title, the job-id line, a line holding one space,
    the submission time, a line holding one space, the script's label, the
    script line by line, a line holding one space, the stdout label, the
    [repr] of stdout on one line, the stderr label, the [repr] of stderr on
    one line.  Line feeds in the captured output never break a line of the
    record. *)
Theorem record_text_layout (w : World) (script out err : string) :
  no_lf (now w) ->
  lines (record_text w script out err)
  = ([ ""; "# Details <batc> ::"; ("PID : " ++ pid_of out)%string; " ";
       ("Time of job submission: " ++ now w)%string; " "; "Sbatch script:" ]
     ++ lines script
     ++ [ " "; "Std Out From Subprocess (If Any):"; str (PBytes out);
          "Std Err (If Any):"; str (PBytes err); "" ])%list.
Proof.
  intros Hnow. unfold record_text.
  change (nl ++ "# Details <batc> ::" ++ nl
             ++ write_lines (map str
                  [ PStr ("PID : " ++ pid_of out); PStr " ";
                    PStr ("Time of job submission: " ++ now w); PStr " ";
                    PStr "Sbatch script:"; PStr script; PStr " ";
                    PStr "Std Out From Subprocess (If Any):"; PBytes out;
                    PStr "Std Err (If Any):"; PBytes err ]))
    with (write_lines [""; "# Details <batc> ::"]
            ++ write_lines
                 ([ ("PID : " ++ pid_of out)%string; " ";
                    ("Time of job submission: " ++ now w)%string; " ";
                    "Sbatch script:" ]
                  ++ script
                  :: [ " "; "Std Out From Subprocess (If Any):";
                       str (PBytes out); "Std Err (If Any):";
                       str (PBytes err) ])%list).
  rewrite lines_write_lines by (repeat constructor).
  rewrite write_lines_app.
  rewrite lines_write_lines.
  2:{ repeat constructor;
        apply no_lf_append; try reflexivity; [apply no_lf_pid_of | exact Hnow]. }
  rewrite write_lines_cons, lines_append_lf.
  rewrite <- (append_nil_r (write_lines _)), lines_write_lines.
  2:{ repeat constructor; apply no_lf_bytes_repr. }
  reflexivity.
Qed.

Lemma record_text_layout_witness :
  lines (record_text Sample.world "exit 0" ("a" ++ nl ++ "b") "")
  = [ ""; "# Details <batc> ::"; "PID : Unknown PID"; " ";
      "Time of job submission: 2024-01-01 00:00:00.000000"; " ";
      "Sbatch script:"; "exit 0"; " ";
      "Std Out From Subprocess (If Any):"; "b'a\nb'";
      "Std Err (If Any):"; "b''"; "" ].
Proof.
  apply (record_text_layout Sample.world "exit 0" ("a" ++ nl ++ "b") "").
  reflexivity.
Defined.

(** X6.  The data file is opened for writing with no existence test: what it
    held before leaves no trace.  Provided the record's file is neither the
    tested log file nor the command's file (as the paths resolve), a run
    over a world where the data file already exists has the same outcome
    and the same events as over the world without it, and when it completes
    the two worlds end up identical. *)
Theorem record_replaces_data_file
    (w : World) (a : RunArgs) (d old : string) :
  getenv w "PWD" = Some d ->
  abspath w (path_join d (datafile' a)) <> checked_path w a ->
  abspath w (path_join d (datafile' a)) <> abspath w (command a) ->
  let w0 :=
    set_files w (<[abspath w (path_join d (datafile' a)) := old]> (files w)) in
  outcome_of (run w0 a) = outcome_of (run w a)
  /\ events_of (run w0 a) = events_of (run w a)
  /\ (outcome_of (run w a) = Done -> world_of (run w0 a) = world_of (run w a)).
Proof.
  intros Hd Hlog Hcmd w0.
  assert (Hl : isfile w0 (logfile' a) = isfile w (logfile' a)).
  { apply isfile_set_files. symmetry. now apply lookup_insert_ne. }
  assert (Hs : slurm_script w0 a = slurm_script w a).
  { apply slurm_script_set_files. symmetry. now apply lookup_insert_ne. }
  unfold run. rewrite Hl, Hs.
  change (sbatch w0) with (sbatch w). change (tmp_name w0) with (tmp_name w).
  change (getenv w0 "PWD") with (getenv w "PWD").
  destruct (isfile w (logfile' a)); [repeat split; discriminate|].
  destruct (sbatch w (slurm_script w a)) as [[out err]|];
    [|repeat split; discriminate].
  rewrite Hd.
  change (abspath w0 (path_join d (datafile' a)))
    with (abspath w (path_join d (datafile' a))).
  change (openable w0) with (openable w).
  change (record_text w0) with (record_text w).
  destruct (openable w _); [|repeat split; discriminate].
  split; [reflexivity|]. split; [reflexivity|]. intros _.
  cbn [world_of fst snd]. subst w0. rewrite write_file_set_files.
  unfold write_file. now rewrite insert_insert_eq.
Qed.

Lemma record_replaces_data_file_witness :
  let w0 :=
    set_files Sample.world
      (<[abspath Sample.world (path_join "/home/u" (datafile' Sample.args))
         := "stale"]> (files Sample.world)) in
  outcome_of (run w0 Sample.args) = outcome_of (run Sample.world Sample.args)
  /\ events_of (run w0 Sample.args) = events_of (run Sample.world Sample.args)
  /\ (outcome_of (run Sample.world Sample.args) = Done ->
      world_of (run w0 Sample.args) = world_of (run Sample.world Sample.args)).
Proof.
  apply (record_replaces_data_file Sample.world Sample.args "/home/u" "stale").
  - vm_compute. reflexivity.
  - vm_compute. discriminate.
  - vm_compute. discriminate.
Defined.

(** A data file named [./default.log] is the tested log file, however it
    is spelled, so the property above does not speak of it. *)
Example data_file_may_be_the_log_file :
  abspath Sample.world (path_join "/home/u" (datafile' Sample.args_data_is_log))
  = checked_path Sample.world Sample.args_data_is_log.
Proof. vm_compute. reflexivity. Qed.

(** ** [setup]: the first run *)

Section SetupFacts.

Lemma expanduser_home (w : World) (home rest : string) :
  getenv w "HOME" = Some home -> rest <> "" ->
  expanduser_tilde w rest = rstrip_slash home ++ rest.
Proof.
  intros Hh Hr. unfold expanduser_tilde. rewrite Hh.
  destruct (rstrip_slash home) as [|c t]; cbn [String.append].
  - destruct rest; [contradiction | reflexivity].
  - reflexivity.
Qed.

Lemma setup_unguarded (w : World) :
  getenv w "BATC_SETUP" <> Some "true" ->
  setup w
  = if openable w (abspath w (expanduser_tilde w "/.bashrc")) then
      (Done,
       append_file w (expanduser_tilde w "/.bashrc")
         (bashrc_block (getenv w "USER")),
       [ System "pip install conda";
         Append (expanduser_tilde w "/.bashrc") (bashrc_block (getenv w "USER"));
         System "source ~/.bashrc" ])
    else (Raised OSError, w, [System "pip install conda"]).
Proof.
  intros H. unfold setup. rewrite bool_decide_eq_false_2 by exact H.
  assert (E : nl ++ "# Added by <batc>" ++ nl
                ++ write_lines
                     [ "alias scratch=" ++ String DQUOTE "cd /fs/nexus-scratch/"
                         ++ str (of_opt (getenv w "USER")) ++ "/"
                         ++ String DQUOTE "";
                       "export BATC_SETUP=true" ]
                ++ "# End of <batc>" ++ nl
              = bashrc_block (getenv w "USER")).
  { unfold bashrc_block. cbn [write_lines]. unfold nl.
    rewrite ?append_assoc, ?append_nil_r. reflexivity. }
  cbn zeta. rewrite E. reflexivity.
Qed.

End SetupFacts.

(** X7.  Without the guard in the environment and with [HOME] set, [setup]
    first runs the install command, then opens [.bashrc] under [HOME]
    (trailing slashes of [HOME] dropped) for appending.  If that succeeds it
    appends the marked block (the alias for the user's scratch directory and
    the export of the guard), sources the profile and completes; if the
    profile cannot be opened it dies with the install already started and
    without appending or sourcing.  What the started processes do themselves
    is not part of the statement. *)
Theorem setup_appends_block (w : World) (home : string) :
  getenv w "BATC_SETUP" <> Some "true" ->
  getenv w "HOME" = Some home ->
  let path := rstrip_slash home ++ "/.bashrc" in
  let block :=
    nl ++ "# Added by <batc>" ++ nl
       ++ "alias scratch=" ++ String DQUOTE "cd /fs/nexus-scratch/"
       ++ str (of_opt (getenv w "USER")) ++ "/" ++ String DQUOTE nl
       ++ "export BATC_SETUP=true" ++ nl
       ++ "# End of <batc>" ++ nl in
  if openable w (abspath w path) then
    outcome_of (setup w) = Done
    /\ events_of (setup w)
       = [ System "pip install conda"; Append path block;
           System "source ~/.bashrc" ]
  else
    outcome_of (setup w) = Raised OSError
    /\ events_of (setup w) = [System "pip install conda"].
Proof.
  intros Hg Hh path block.
  rewrite (setup_unguarded w Hg).
  rewrite (expanduser_home w home "/.bashrc" Hh) by discriminate.
  fold path. change (bashrc_block (getenv w "USER")) with block.
  destruct (openable w (abspath w path)); split; reflexivity.
Qed.

Lemma setup_appends_block_witness :
  outcome_of (setup Sample.world) = Done
  /\ events_of (setup Sample.world)
     = [ System "pip install conda";
         Append "/home/u/.bashrc" (bashrc_block (Some "u"));
         System "source ~/.bashrc" ].
Proof.
  apply (setup_appends_block Sample.world "/home/u").
  - vm_compute. discriminate.
  - vm_compute. reflexivity.
Defined.

(** X9.  The guard only works through the environment: [setup] run again in
    the same process environment (the guard still not set there, the profile
    still writable) appends the block a second time.  Nothing in the profile
    is read or deduplicated. *)
Theorem setup_again_appends_again (w : World) (home : string) :
  getenv w "BATC_SETUP" <> Some "true" ->
  getenv w "HOME" = Some home ->
  openable w (abspath w (rstrip_slash home ++ "/.bashrc")) = true ->
  let path := abspath w (rstrip_slash home ++ "/.bashrc") in
  let block := bashrc_block (getenv w "USER") in
  files (world_of (setup (world_of (setup w)))) !! path
  = Some (default "" (files w !! path) ++ block ++ block)
  /\ events_of (setup (world_of (setup w))) = events_of (setup w).
Proof.
  intros Hg Hh Ho path block.
  pose proof (expanduser_home w home "/.bashrc" Hh) as Hp.
  specialize (Hp ltac:(discriminate)).
  assert (E1 : setup w
               = (Done, append_file w (rstrip_slash home ++ "/.bashrc") block,
                  [ System "pip install conda";
                    Append (rstrip_slash home ++ "/.bashrc") block;
                    System "source ~/.bashrc" ])).
  { rewrite (setup_unguarded w Hg), Hp, Ho. reflexivity. }
  rewrite E1. cbn [world_of fst snd events_of].
  set (w1 := append_file w (rstrip_slash home ++ "/.bashrc") block).
  assert (E2 : setup w1
               = (Done, append_file w1 (rstrip_slash home ++ "/.bashrc") block,
                  [ System "pip install conda";
                    Append (rstrip_slash home ++ "/.bashrc") block;
                    System "source ~/.bashrc" ])).
  { rewrite (setup_unguarded w1 Hg).
    rewrite (expanduser_home w1 home "/.bashrc" Hh) by discriminate.
    change (abspath w1) with (abspath w). change (openable w1) with (openable w).
    rewrite Ho. reflexivity. }
  rewrite E2. split; [|reflexivity].
  cbn [world_of fst snd append_file set_files files].
  change (abspath w1) with (abspath w). fold path.
  rewrite lookup_insert_eq. subst w1. cbn [append_file set_files files].
  fold path. rewrite lookup_insert_eq. cbn [default option_rect from_option id].
  now rewrite append_assoc.
Qed.

Lemma setup_again_appends_again_witness :
  files (world_of (setup (world_of (setup Sample.world)))) !! "/home/u/.bashrc"
  = Some (bashrc_block (Some "u") ++ bashrc_block (Some "u"))
  /\ events_of (setup (world_of (setup Sample.world)))
     = events_of (setup Sample.world).
Proof.
  apply (setup_again_appends_again Sample.world "/home/u").
  - vm_compute. discriminate.
  - vm_compute. reflexivity.
  - reflexivity.
Defined.

(** ** The two commands keep apart *)

(** X10.  [run] never echoes, never calls [os.system] and never appends to
    a file, so it cannot touch the shell profile; [setup] never writes a
    temporary script, never starts [sbatch] and never writes a record. *)
Theorem commands_keep_to_their_effects (w : World) (a : RunArgs) :
  forallb is_submit_event (events_of (run w a)) = true
  /\ forallb is_shell_event (events_of (setup w)) = true.
Proof.
  split.
  - destruct (run_cases w a)
      as [E|[E|(out & err & _ & _ & [[E _]|[E|(d & _ & _ & E)]])]];
      rewrite E; reflexivity.
  - destruct (decide (getenv w "BATC_SETUP" = Some "true")) as [H|H].
    + unfold setup. now rewrite bool_decide_eq_true_2.
    + rewrite (setup_unguarded w H). now destruct (openable w _).
Qed.

(** ** [run]: the rest of the script *)

(** X11.  After the directive block the script always goes on the same way:
    a blank line, the conda hook, a blank line, the remark and the
    activation of the environment passed as [--conda_env] (or its default),
    a blank line, the remark and the command.  For one-line values the
    script has exactly twenty lines, the last of them empty. *)
Theorem script_body_layout (w : World) (a : RunArgs) :
  one_line_fields a ->
  no_lf (str (of_opt (conda_env a))) ->
  no_lf (command a) ->
  skipn 11 (lines (slurm_script w a))
  = [ "";
      "eval " ++ String DQUOTE "$(conda shell.bash hook)" ++ String DQUOTE "";
      "";
      "# Activate conda environment";
      "conda activate " ++ str (of_opt (conda_env a));
      "";
      "# Run your Python script or other commands";
      if isfile w (command a) then "python " ++ command a else command a;
      "" ]
  /\ length (lines (slurm_script w a)) = 20.
Proof.
  intros Hf He Hc. rewrite slurm_script_write_lines.
  rewrite <- (append_nil_r (write_lines _)), lines_write_lines.
  - unfold directives, body_lines, command'. split; reflexivity.
  - constructor; [reflexivity|]. apply Forall_app. split.
    + now apply no_lf_directives.
    + apply Forall_app. split; [now apply no_lf_body_lines|].
      constructor; [|constructor]. unfold command'.
      destruct (isfile w (command a)); [|exact Hc].
      apply no_lf_append; [reflexivity | exact Hc].
Qed.

Lemma script_body_layout_witness :
  skipn 11 (lines (slurm_script Sample.world Sample.args_quoted))
  = [ "";
      "eval " ++ String DQUOTE "$(conda shell.bash hook)" ++ String DQUOTE "";
      "";
      "# Activate conda environment";
      "conda activate None";
      "";
      "# Run your Python script or other commands";
      "python train.py --flag";
      "" ]
  /\ length (lines (slurm_script Sample.world Sample.args_quoted)) = 20.
Proof.
  apply (script_body_layout Sample.world Sample.args_quoted).
  - split; [|intros _]; repeat constructor.
  - reflexivity.
  - reflexivity.
Defined.

(** ** The module level: the derived name *)

Section HostName.

Lemma all_alpha_take_while (s : string) :
  all_alpha (take_while is_alpha s) = true.
Proof.
  induction s as [|c s IH]; cbn [take_while all_alpha]; [reflexivity|].
  destruct (is_alpha c) eqn:Hc; cbn [all_alpha]; [|reflexivity].
  now rewrite Hc, IH.
Qed.

Lemma take_while_alpha_split (s : string) :
  exists post, s = take_while is_alpha s ++ post /\ stops_alpha post.
Proof.
  induction s as [|c s (post & IH & Hp)]; cbn [take_while].
  - exists "". now split.
  - destruct (is_alpha c) eqn:Hc.
    + exists post. split; [|exact Hp]. cbn [String.append]. now rewrite <- IH.
    + exists (String c s). split; [reflexivity | exact Hc].
Qed.

Lemma take_while_alpha (name rest : string) :
  all_alpha name = true -> stops_alpha rest ->
  take_while is_alpha (name ++ rest) = name.
Proof.
  induction name as [|c name IH]; cbn [all_alpha String.append take_while].
  - intros _ Hr. destruct rest as [|c rest]; [reflexivity|].
    cbn [take_while]. cbn in Hr. now rewrite Hr.
  - intros H Hr. apply andb_prop in H as [Hc Hn]. rewrite Hc.
    now rewrite IH.
Qed.

Lemma search_nexus_iff (s name : string) :
  search_nexus s = Some name
  <-> exists rest,
        s = "nexus" ++ name ++ rest
        /\ name <> "" /\ all_alpha name = true /\ stops_alpha rest.
Proof.
  unfold search_nexus. split.
  - destruct (strip_prefix "nexus" s) as [r|] eqn:E; [|discriminate].
    apply strip_prefix_Some in E.
    pose proof (all_alpha_take_while r) as Ha.
    destruct (take_while_alpha_split r) as (post & Hr & Hp).
    destruct (take_while is_alpha r) as [|c t] eqn:Et; [discriminate|].
    intros H. injection H as <-. exists post.
    split; [now rewrite E, Hr|]. split; [discriminate|]. now split.
  - intros (rest & -> & Hne & Ha & Hr).
    rewrite strip_prefix_append, (take_while_alpha name rest Ha Hr).
    destruct name; [contradiction | reflexivity].
Qed.

End HostName.

(** X12.  The account and partition default is the longest run of ASCII
    letters that follows [nexus] at the very start of the host name, and
    nothing else: [partition_acc_name] is [name] exactly when the host name
    is [nexus], then [name] (not empty, letters only), then something that
    does not go on with a letter.  On such a host every command is
    dispatched, and [batc run] without [--acc] and [--part] uses [name] for
    both. *)
Theorem partition_name_from_host (w : World) (name : string) :
  (partition_acc_name w = Some name
   <-> exists rest,
         fqdn w = "nexus" ++ name ++ rest
         /\ name <> "" /\ all_alpha name = true /\ stops_alpha rest)
  /\ (partition_acc_name w = Some name ->
      main w CliSetup = setup w
      /\ forall o,
           main w (CliRun o) = run w (with_defaults w name o)
           /\ (o_acc o = None -> acc (with_defaults w name o) = name)
           /\ (o_part o = None -> part (with_defaults w name o) = name)).
Proof.
  split; [apply search_nexus_iff|].
  intros H. unfold main. rewrite H. split; [reflexivity|].
  intros o. split; [reflexivity|].
  unfold with_defaults. cbn [acc part]. split; now intros ->.
Qed.

Lemma partition_name_from_host_witness :
  main Sample.world CliSetup = setup Sample.world
  /\ forall o,
       main Sample.world (CliRun o)
       = run Sample.world (with_defaults Sample.world "clip" o)
       /\ (o_acc o = None -> acc (with_defaults Sample.world "clip" o) = "clip")
       /\ (o_part o = None ->
           part (with_defaults Sample.world "clip" o) = "clip").
Proof.
  apply (proj2 (partition_name_from_host Sample.world "clip")).
  reflexivity.
Defined.

(** The host name of the sample splits as the characterisation says. *)
Example sample_host_name :
  exists rest,
    fqdn Sample.world = "nexus" ++ "clip" ++ rest
    /\ "clip" <> "" /\ all_alpha "clip" = true /\ stops_alpha rest.
Proof. exists "00.umiacs.umd.edu". repeat split. discriminate. Qed.

(** ** [batc run CMD] with every option left out *)

Section Defaults.

Lemma no_lf_alpha (s : string) : all_alpha s = true -> no_lf s.
Proof.
  unfold no_lf. induction s as [|c s IH]; cbn [all_alpha mem_char].
  - reflexivity.
  - intros H. apply andb_prop in H as [Hc Hs].
    destruct (Ascii.eqb_spec LF c) as [<-|_]; [discriminate Hc | now apply IH].
Qed.

End Defaults.

(** X13.  With no option given, on a host whose derived name is [name] and
    with [PWD] set to a one-line path [d], the script that is submitted asks
    for job name [default], qos [default], partition and account [name],
    one task, one CPU, 32gb, one [rtxa4000] GPU and the time limit [10:00],
    and sends the
    job's output to [d/default.log]; the record, if one is written, goes to
    [d] joined with [default.data]. *)
Theorem bare_run_defaults
    (w : World) (name d cmd script : string) :
  partition_acc_name w = Some name ->
  getenv w "PWD" = Some d ->
  no_lf d ->
  submitted_script (main w (CliRun (bare_opts cmd))) = Some script ->
  firstn 12 (lines script)
  = [ "#!/bin/bash";
      "#SBATCH --job-name=default";
      "#SBATCH --qos=default";
      "#SBATCH --partition=" ++ name;
      "#SBATCH --account=" ++ name;
      "#SBATCH --ntasks=1";
      "#SBATCH --cpus-per-task=1";
      "#SBATCH --mem=32gb";
      "#SBATCH --gpus=rtxa4000:1";
      "#SBATCH --time=10:00";
      "#SBATCH --output=" ++ d ++ "/default.log # Redirect the output to a file";
      "" ]
  /\ forall p t,
       In (WriteFile p t) (events_of (main w (CliRun (bare_opts cmd)))) ->
       p = path_join d "default.data".
Proof.
  intros Hn Hd Hlf Hs. unfold main in *. rewrite Hn in *.
  set (a := with_defaults w name (bare_opts cmd)) in *.
  rewrite submitted_script_run in Hs.
  destruct (isfile w (logfile' a)); [discriminate|]. injection Hs as <-.
  split.
  - assert (Hname : no_lf name).
    { apply search_nexus_iff in Hn as (rest & _ & _ & Ha & _).
      now apply no_lf_alpha. }
    assert (Hf : one_line_fields a).
    { split; [|intros _; repeat constructor].
      unfold one_line_common, a, with_defaults, bare_opts, logfile'.
      cbn. rewrite Hd. repeat constructor; assumption. }
    rewrite (script_head_lines w a Hf).
    unfold directives, output_path, a, with_defaults, bare_opts, logfile'.
    cbn. rewrite Hd. cbn. rewrite !append_assoc. reflexivity.
  - intros p t Hin. exact (run_write_path w a d p t Hd Hin).
Qed.

Lemma bare_run_defaults_witness :
  firstn 12 (lines (slurm_script Sample.world Sample.args))
  = [ "#!/bin/bash";
      "#SBATCH --job-name=default";
      "#SBATCH --qos=default";
      "#SBATCH --partition=clip";
      "#SBATCH --account=clip";
      "#SBATCH --ntasks=1";
      "#SBATCH --cpus-per-task=1";
      "#SBATCH --mem=32gb";
      "#SBATCH --gpus=rtxa4000:1";
      "#SBATCH --time=10:00";
      "#SBATCH --output=/home/u/default.log # Redirect the output to a file";
      "" ]
  /\ forall p t,
       In (WriteFile p t)
          (events_of (main Sample.world (CliRun (bare_opts "train.py")))) ->
       p = path_join "/home/u" "default.data".
Proof.
  apply (bare_run_defaults Sample.world "clip" "/home/u" "train.py").
  - reflexivity.
  - vm_compute. reflexivity.
  - reflexivity.
  - vm_compute. reflexivity.
Defined.
